(** * training/finetune.py: the JSONL dataset loader and the fine-tuning driver

    A shallow embedding of [src/training/finetune.py].  Python [str] values are
    lists of Unicode code points, JSON values are an inductive type, the file
    system is a finite map from paths to nodes, and the effectful functions
    ([load_dataset], [train], [main], ...) live in a small state-and-exception
    monad over a [world] (file system, standard output, the opaque state of the
    machine-learning libraries, and a log of the library calls made). *)

From Stdlib Require Import ZArith NArith List Bool Ascii String Lia.
From Stdlib Require Import DecimalString.
From Stdlib Require Import Floats.PrimFloat Floats.SpecFloat Floats.FloatOps.
From stdpp Require Import base option list gmap.

Set Warnings "-inexact-float,-register-all".
Local Open Scope N_scope.

(** ** Python strings *)

(** A [str] is its sequence of code points. *)
Definition pystr : Type := list N.

(** Source literals are written as UTF-8 text and decoded to code points. *)
Fixpoint utf8_decode (bs : list N) : pystr :=
  match bs with
  | [] => []
  | b0 :: r0 =>
      if b0 <? 128 then b0 :: utf8_decode r0
      else
        match r0 with
        | [] => []
        | b1 :: r1 =>
            if b0 <? 224 then ((b0 - 192) * 64 + (b1 - 128)) :: utf8_decode r1
            else
              match r1 with
              | [] => []
              | b2 :: r2 =>
                  if b0 <? 240
                  then ((b0 - 224) * 4096 + (b1 - 128) * 64 + (b2 - 128))
                         :: utf8_decode r2
                  else
                    match r2 with
                    | [] => []
                    | b3 :: r3 =>
                        ((b0 - 240) * 262144 + (b1 - 128) * 4096
                         + (b2 - 128) * 64 + (b3 - 128)) :: utf8_decode r3
                    end
              end
        end
  end.

Definition py (s : string) : pystr :=
  utf8_decode (map N_of_ascii (list_ascii_of_string s)).

(** JSON text for the examples: every apostrophe of [s] stands for a double
    quote and every vertical bar for a line feed. *)
Definition jtext (s : string) : pystr :=
  map (fun c => if c =? 39 then 34 else if c =? 124 then 10 else c) (py s).

(** [str(n)] for a non-negative integer. *)
Definition str_of_nat (n : nat) : pystr :=
  py (NilEmpty.string_of_uint (Nat.to_uint n)).

Definition pystr_eqb (a b : pystr) : bool := bool_decide (a = b).

(** [s.startswith(p)], returning what follows the prefix. *)
Fixpoint strip_prefix (p s : pystr) : option pystr :=
  match p, s with
  | [], _ => Some s
  | _ :: _, [] => None
  | a :: p', b :: s' => if a =? b then strip_prefix p' s' else None
  end.

(** [old in s] *)
Fixpoint str_contains (old s : pystr) : bool :=
  match strip_prefix old s with
  | Some _ => true
  | None => match s with [] => false | _ :: r => str_contains old r end
  end.

(** [str.isspace] on one code point. *)
Definition is_space (c : N) : bool :=
  ((9 <=? c) && (c <=? 13)) || ((28 <=? c) && (c <=? 32))
  || (c =? 133) || (c =? 160) || (c =? 5760)
  || ((8192 <=? c) && (c <=? 8202))
  || (c =? 8232) || (c =? 8233) || (c =? 8239) || (c =? 8287) || (c =? 12288).

Fixpoint lstrip (s : pystr) : pystr :=
  match s with
  | c :: r => if is_space c then lstrip r else s
  | [] => []
  end.

Definition rstrip (s : pystr) : pystr := rev (lstrip (rev s)).

(** [s.strip()] *)
Definition str_strip (s : pystr) : pystr := rstrip (lstrip s).

(** The scan of [s.replace(old, new)] for a non-empty [old]: [k] is the number
    of code points of the current match still to be passed over. *)
Fixpoint replace_go (old new : pystr) (k : nat) (s : pystr) : pystr :=
  match s with
  | [] => []
  | c :: r =>
      match k with
      | S k' => replace_go old new k' r
      | O =>
          match strip_prefix old s with
          | Some _ => new ++ replace_go old new (Nat.pred (length old)) r
          | None => c :: replace_go old new O r
          end
      end
  end.

(** [s.replace(old, new)]: every non-overlapping occurrence of [old], found
    from left to right, is replaced by [new]. *)
Definition str_replace (old new s : pystr) : pystr :=
  match old with
  | [] => new ++ flat_map (fun c => c :: new) s
  | _ :: _ => replace_go old new O s
  end.

(** ** Reading a text file line by line *)

(** [for line in f] on a file opened in text mode with the default
    [newline=None]: a line ends after a line feed, a carriage return or the
    pair of them, each handed over as a single line feed. *)
Fixpoint readlines_go (cur : pystr) (s : pystr) : list pystr :=
  match s with
  | [] => match cur with [] => [] | _ => [rev cur] end
  | c :: r =>
      if c =? 10 then rev (10 :: cur) :: readlines_go [] r
      else if c =? 13 then
        match r with
        | c' :: r' =>
            if c' =? 10 then rev (10 :: cur) :: readlines_go [] r'
            else rev (10 :: cur) :: readlines_go [] r
        | [] => [rev (10 :: cur)]
        end
      else readlines_go (c :: cur) r
  end.

Definition readlines (content : pystr) : list pystr := readlines_go [] content.


(** ** JSON values, as [json.loads] builds them *)

Inductive json : Type :=
| JNull
| JBool (b : bool)
| JInt (n : Z)
| JFloat (f : float)
| JStr (s : pystr)
| JList (l : list json)
| JDict (d : list (pystr * json)).

(** A [dict] keeps one binding per key, in insertion order. *)
Fixpoint dict_get (d : list (pystr * json)) (k : pystr) : option json :=
  match d with
  | [] => None
  | (k', v) :: d' => if pystr_eqb k' k then Some v else dict_get d' k
  end.

Fixpoint dict_set (d : list (pystr * json)) (k : pystr) (v : json)
  : list (pystr * json) :=
  match d with
  | [] => [(k, v)]
  | (k', v') :: d' =>
      if pystr_eqb k' k then (k', v) :: d' else (k', v') :: dict_set d' k v
  end.

(** [d.get(k, default)] *)
Definition dict_get_default (d : list (pystr * json)) (k : pystr) (dflt : json)
  : json :=
  match dict_get d k with Some v => v | None => dflt end.

(** [bool(v)]: what [if v] tests. *)
Definition truthy (v : json) : bool :=
  match v with
  | JNull => false
  | JBool b => b
  | JInt n => negb (n =? 0)%Z
  | JFloat f => negb (PrimFloat.eqb f 0%float)
  | JStr s => match s with [] => false | _ => true end
  | JList l => match l with [] => false | _ => true end
  | JDict d => match d with [] => false | _ => true end
  end.

(** ** Paths and the file system *)

Inductive node : Type :=
| File (content : pystr)
| Dir.

(** Paths are identified by their spelling. *)
Abbreviation filesystem := (gmap pystr node).

Definition ends_with_slash (a : pystr) : bool :=
  match rev a with c :: _ => c =? 47 | [] => false end.

(** [os.path.join(a, b)] *)
Definition os_path_join (a b : pystr) : pystr :=
  match b with
  | 47 :: _ => b
  | _ =>
      match a with
      | [] => b
      | _ => if ends_with_slash a then a ++ b else a ++ 47 :: b
      end
  end.

(** The proper ancestors of a path: its non-empty prefixes that stop just
    before a slash, shortest first. *)
Fixpoint ancestors_go (cur : pystr) (p : pystr) : list pystr :=
  match p with
  | [] => []
  | c :: r =>
      if c =? 47
      then match cur with
           | [] => ancestors_go [c] r
           | _ => rev cur :: ancestors_go (c :: cur) r
           end
      else ancestors_go (c :: cur) r
  end.

Definition ancestors (p : pystr) : list pystr := ancestors_go [] p.

(** The directory a file at [p] is created in; [[]] is the current directory
    (or the root), which always exists. *)
Definition parent_dir (p : pystr) : pystr :=
  match last (ancestors p) with Some d => d | None => [] end.

(** ** Outcomes, the world and the monad of the script *)

Inductive exn : Type :=
| JSONDecodeError
| RecursionError
| ValueError
| UnicodeEncodeError
| AttributeError
| OSError
| LibraryError.

Inductive outcome (A : Type) : Type :=
| Returns (a : A)
| Exits (code : Z)
| Raises (e : exn).
Arguments Returns {A} a.
Arguments Exits {A} code.
Arguments Raises {A} e.

(** One element of the dataset: [{"text": text}]. *)
Record example : Type := Example { text : pystr }.

Definition dataset : Type := list example.

(** Objects of the machine-learning libraries are references into the
    libraries' own state. *)
Definition handle : Type := N.

Inductive load_config : Type :=
| LoadCpu            (* torch_dtype=torch.float32, device_map="cpu" *)
| LoadQuantized      (* BitsAndBytesConfig(load_in_4bit=True, nf4, float16,
                        double quant), device_map="auto" *).

Record lora_config : Type := LoraConfig {
  lc_task_type : pystr;
  lc_r : Z;
  lc_lora_alpha : Z;
  lc_lora_dropout : float;
  lc_target_modules : list pystr;
  lc_bias : pystr
}.

Record eval_arguments : Type := EvalArguments {
  ea_eval_strategy : pystr;
  ea_eval_steps : Z;
  ea_load_best_model_at_end : bool
}.

Record training_arguments : Type := TrainingArguments {
  ta_output_dir : pystr;
  ta_num_train_epochs : Z;
  ta_per_device_train_batch_size : Z;
  ta_gradient_accumulation_steps : Z;
  ta_learning_rate : float;
  ta_weight_decay : float;
  ta_warmup_ratio : float;
  ta_lr_scheduler_type : pystr;
  ta_logging_steps : Z;
  ta_save_steps : Z;
  ta_save_total_limit : Z;
  ta_fp16 : bool;
  ta_bf16 : bool;
  ta_gradient_checkpointing : bool;
  ta_optim : pystr;
  ta_report_to : pystr;
  ta_remove_unused_columns : bool;
  ta_eval : option eval_arguments
}.

Inductive callback : Type :=
| EarlyStoppingCallback (early_stopping_patience : Z).

Record sft_config : Type := SFTConfig {
  sft_model : handle;
  sft_args : training_arguments;
  sft_train_dataset : dataset;
  sft_eval_dataset : option dataset;
  sft_tokenizer : handle;
  sft_max_seq_length : Z;
  sft_dataset_text_field : pystr;
  sft_packing : bool;
  sft_callbacks : option (list callback)
}.

(** The calls the script makes into the libraries, with their arguments. *)
Inductive libcall : Type :=
| CallNow
| CallCudaIsAvailable
| CallMpsIsAvailable
| CallTokenizerFromPretrained (model_name : pystr)
| CallGetPadToken (tokenizer : handle)
| CallSetPadTokenToEos (tokenizer : handle)
| CallModelFromPretrained (model_name : pystr) (cfg : load_config)
| CallGetPeftModel (model : handle) (cfg : lora_config)
| CallPrintTrainableParameters (model : handle)
| CallTrainTestSplit (ds : dataset) (test_size : float) (seed : Z)
| CallSFTTrainer (cfg : sft_config)
| CallTrain (trainer : handle)
| CallEvaluate (trainer : handle)
| CallMergeAndUnload (model : handle)
| CallSavePretrained (model : handle) (dir : pystr)
| CallTokenizerSavePretrained (tokenizer : handle) (dir : pystr).

Record world (H : Type) : Type := World {
  fs : filesystem;
  stdout : list pystr;
  heap : H;
  calls : list libcall
}.
Arguments World {H} fs stdout heap calls.
Arguments fs {H} w.
Arguments stdout {H} w.
Arguments heap {H} w.
Arguments calls {H} w.

(** The command line, as [parse_args] returns it. *)
Record arguments : Type := Arguments {
  args_data : pystr;
  args_output : pystr;
  args_model : pystr;
  args_epochs : Z;
  args_batch_size : Z;
  args_learning_rate : float;
  args_max_length : Z;
  args_lora_r : Z;
  args_export_gguf : bool;
  args_gguf_output : option pystr;
  args_lr_scheduler : pystr;
  args_early_stopping_patience : Z
}.

(** A library call may fail, and otherwise returns a value and a new world. *)
Definition ext (H A : Type) : Type := world H -> option (A * world H).

(** What the script takes from outside its own source: the libraries it
    imports, with their state. *)
Class Libraries : Type := {
  lib_heap : Type;
  (** [parser.parse_args()] on the command line: argparse returns the
      arguments, or prints and ends the process itself (status 2 for a
      command line it rejects, 0 after [--help]) *)
  parse_args : list pystr -> world lib_heap -> outcome arguments * world lib_heap;
  (** [json.loads(s)]; [None] when it raises *)
  json_loads : pystr -> option json;
  (** the exception [json.loads(s)] raises when it does: [JSONDecodeError]
      for a text that is not JSON, [RecursionError] for one nested too
      deeply, [ValueError] for an integer of too many digits *)
  json_loads_error : pystr -> exn;
  (** [Dataset.from_list(data)] builds the dataset of the records of [data],
      in their order, or raises; [Some e] when it raises [e]
      ([UnicodeEncodeError] for a text that UTF-8 cannot encode) *)
  from_list_error : list example -> option exn;
  (** [json.dump(v, f, indent=2, ensure_ascii=False)], as the text written *)
  json_dump : json -> pystr;
  (** [str(x)] and [format(x, ".4f")] on a float *)
  float_str : float -> pystr;
  float_4f : float -> pystr;
  (** [datetime.now().strftime("%Y%m%d_%H%M%S")] *)
  now_strftime : ext lib_heap pystr;
  cuda_is_available : ext lib_heap bool;
  mps_is_available : ext lib_heap bool;
  tokenizer_from_pretrained : pystr -> ext lib_heap handle;
  get_pad_token : handle -> ext lib_heap (option pystr);
  set_pad_token_to_eos : handle -> ext lib_heap unit;
  model_from_pretrained : pystr -> load_config -> ext lib_heap handle;
  get_peft_model : handle -> lora_config -> ext lib_heap handle;
  print_trainable_parameters : handle -> ext lib_heap unit;
  train_test_split : dataset -> float -> Z -> ext lib_heap (dataset * dataset);
  new_sft_trainer : sft_config -> ext lib_heap handle;
  trainer_train : handle -> ext lib_heap float;
  trainer_evaluate : handle -> ext lib_heap float;
  merge_and_unload : handle -> ext lib_heap handle;
  save_pretrained : handle -> pystr -> ext lib_heap unit;
  tokenizer_save_pretrained : handle -> pystr -> ext lib_heap unit
}.

Section Script.

Context {L : Libraries}.

Definition M (A : Type) : Type := world lib_heap -> outcome A * world lib_heap.

Definition ret {A} (a : A) : M A := fun w => (Returns a, w).

Definition bind {A B} (m : M A) (k : A -> M B) : M B :=
  fun w =>
    match m w with
    | (Returns a, w') => k a w'
    | (Exits c, w') => (Exits c, w')
    | (Raises e, w') => (Raises e, w')
    end.

Definition raise {A} (e : exn) : M A := fun w => (Raises e, w).

(** [sys.exit(code)] *)
Definition sys_exit {A} (code : Z) : M A := fun w => (Exits code, w).

(** [print(s)] *)
Definition print (s : pystr) : M unit :=
  fun w => (Returns tt, World (fs w) (stdout w ++ [s]) (heap w) (calls w)).

(** A call into a library: the call is logged, and a failure of the library
    is an exception the script does not catch. *)
Definition call {A} (ev : libcall) (f : ext lib_heap A) : M A :=
  fun w =>
    match f w with
    | Some (a, w') =>
        (Returns a, World (fs w') (stdout w') (heap w') (calls w ++ [ev]))
    | None => (Raises LibraryError, World (fs w) (stdout w) (heap w) (calls w ++ [ev]))
    end.

(** [os.path.exists(p)] *)
Definition os_path_exists (p : pystr) : M bool :=
  fun w => (Returns (bool_decide (is_Some (fs w !! p))), w).

Fixpoint mkdirs (ps : list pystr) (f : filesystem) : option filesystem :=
  match ps with
  | [] => Some f
  | p :: ps' =>
      match f !! p with
      | Some (File _) => None
      | _ => mkdirs ps' (<[p := Dir]> f)
      end
  end.

(** [os.makedirs(p, exist_ok=True)] *)
Definition os_makedirs (p : pystr) : M unit :=
  fun w =>
    match mkdirs (ancestors p ++ [p]) (fs w) with
    | Some f => (Returns tt, World f (stdout w) (heap w) (calls w))
    | None => (Raises OSError, w)
    end.

(** [open(p, "r", encoding="utf-8")] followed by reading the whole text *)
Definition read_text (p : pystr) : M pystr :=
  fun w =>
    match fs w !! p with
    | Some (File c) => (Returns c, w)
    | _ => (Raises OSError, w)
    end.

Definition parent_exists (p : pystr) (f : filesystem) : bool :=
  match parent_dir p with
  | [] => true
  | d => match f !! d with Some Dir => true | _ => false end
  end.

(** [open(p, "w")] followed by writing [c] *)
Definition write_text (p c : pystr) : M unit :=
  fun w =>
    match fs w !! p with
    | Some Dir => (Raises OSError, w)
    | _ =>
        if parent_exists p (fs w)
        then (Returns tt, World (<[p := File c]> (fs w)) (stdout w) (heap w) (calls w))
        else (Raises OSError, w)
    end.

End Script.

Declare Scope script_scope.
Delimit Scope script_scope with script.
Notation "'let*' x ':=' m 'in' k" := (bind m (fun x => k))
  (at level 10, x pattern, m at level 100, k at level 200) : script_scope.
Notation "m ';;' k" := (bind m (fun _ => k))
  (at level 100, k at level 200, right associativity) : script_scope.

Local Open Scope script_scope.

(** [str(z)] for an integer. *)
Definition str_of_Z (z : Z) : pystr :=
  if (z <? 0)%Z then 45 :: str_of_nat (Z.abs_nat z) else str_of_nat (Z.abs_nat z).

(** ** The dataset loader *)

(** [prompt.replace("用户: ", "").replace("User: ", "")] *)
Definition clean_prompt (prompt : pystr) : pystr :=
  str_replace (py "User: ") [] (str_replace (py "用户: ") [] prompt).

(** [completion.replace("助手: ", "").replace("Assistant: ", "")] *)
Definition clean_completion (completion : pystr) : pystr :=
  str_replace (py "Assistant: ") [] (str_replace (py "助手: ") [] completion).

(** The f-string that builds one training text. *)
Definition chat_text (prompt completion : pystr) : pystr :=
  py "<|im_start|>user" ++ [10] ++ prompt ++ py "<|im_end|>" ++ [10]
  ++ py "<|im_start|>assistant" ++ [10] ++ completion ++ py "<|im_end|>".

Section Loader.

Context {L : Libraries}.

(** The body of the loop over the lines of the file; [data] is the list
    built so far. *)
Definition load_line (line : pystr) (data : list example)
  : outcome (list example) :=
  let line := str_strip line in
  match line with
  | [] => Returns data
  | _ =>
      match json_loads line with
      | None => Raises (json_loads_error line)
      | Some (JDict item) =>
          let prompt := dict_get_default item (py "prompt") (JStr []) in
          let completion := dict_get_default item (py "completion") (JStr []) in
          if truthy prompt && truthy completion then
            match prompt with
            | JStr prompt =>
                let prompt := clean_prompt prompt in
                match completion with
                | JStr completion =>
                    let completion := clean_completion completion in
                    let text := chat_text prompt completion in
                    Returns (data ++ [Example text])
                | _ => Raises AttributeError
                end
            | _ => Raises AttributeError
            end
          else Returns data
      | Some _ => Raises AttributeError
      end
  end.

Fixpoint load_lines (lines : list pystr) (data : list example)
  : outcome (list example) :=
  match lines with
  | [] => Returns data
  | line :: rest =>
      match load_line line data with
      | Returns data' => load_lines rest data'
      | Exits c => Exits c
      | Raises e => Raises e
      end
  end.

(** [Dataset.from_list(data)] *)
Definition dataset_from_list (data : list example) : M dataset :=
  match from_list_error data with
  | None => ret data
  | Some e => raise e
  end.

Definition load_dataset (data_path : pystr) : M dataset :=
  let* content := read_text data_path in
  match load_lines (readlines content) [] with
  | Returns data =>
      print (py "加载了 " ++ str_of_nat (length data) ++ py " 条训练数据") ;;
      dataset_from_list data
  | Exits c => sys_exit c
  | Raises e => raise e
  end.

End Loader.

(** ** Model set-up, training and export *)

(** [bool(ds)] for a value that is [None] or a [Dataset]. *)
Definition dataset_truthy (ds : option dataset) : bool :=
  match ds with
  | Some (_ :: _) => true
  | _ => false
  end.

Definition banner : pystr := repeat 61 50%nat.

Section Driver.

Context {L : Libraries}.

Definition setup_model (model_name device : pystr) : M (handle * handle) :=
  print (py "加载模型: " ++ model_name) ;;
  print (py "设备: " ++ device) ;;
  let* tokenizer :=
    call (CallTokenizerFromPretrained model_name)
         (tokenizer_from_pretrained model_name) in
  let* pad := call (CallGetPadToken tokenizer) (get_pad_token tokenizer) in
  (match pad with
   | None => call (CallSetPadTokenToEos tokenizer) (set_pad_token_to_eos tokenizer)
   | Some _ => ret tt
   end) ;;
  let cfg := if pystr_eqb device (py "cpu") then LoadCpu else LoadQuantized in
  let* model :=
    call (CallModelFromPretrained model_name cfg)
         (model_from_pretrained model_name cfg) in
  ret (model, tokenizer).

Definition setup_lora (model : handle) (lora_r : Z) : M handle :=
  let lora_config :=
    LoraConfig (py "CAUSAL_LM") lora_r (lora_r * 2)%Z 0.05%float
               [py "q_proj"; py "k_proj"; py "v_proj"; py "o_proj"] (py "none") in
  let* model := call (CallGetPeftModel model lora_config)
                     (get_peft_model model lora_config) in
  call (CallPrintTrainableParameters model) (print_trainable_parameters model) ;;
  ret model.

Definition train (model tokenizer : handle) (dataset0 : dataset)
    (args : arguments) (output_dir : pystr) : M handle :=
  let* split :=
    (if (20 <? length dataset0)%nat then
       let* split := call (CallTrainTestSplit dataset0 0.1%float 42%Z)
                          (train_test_split dataset0 0.1%float 42%Z) in
       ret (fst split, Some (snd split))
     else ret (dataset0, None)) in
  let dataset := fst split in
  let eval_dataset := snd split in
  let training_args :=
    TrainingArguments output_dir (args_epochs args) (args_batch_size args) 4%Z
      (args_learning_rate args) 0.01%float 0.1%float (args_lr_scheduler args)
      10%Z 100%Z 2%Z false false true (py "adamw_torch") (py "none") false
      (if dataset_truthy eval_dataset
       then Some (EvalArguments (py "steps") 50%Z true) else None) in
  let callbacks :=
    if dataset_truthy eval_dataset
    then [EarlyStoppingCallback (args_early_stopping_patience args)] else [] in
  let sft :=
    SFTConfig model training_args dataset eval_dataset tokenizer
      (args_max_length args) (py "text") false
      (match callbacks with [] => None | _ => Some callbacks end) in
  let* trainer := call (CallSFTTrainer sft) (new_sft_trainer sft) in
  print ([10] ++ py "开始训练...") ;;
  print (py "轮数: " ++ str_of_Z (args_epochs args)) ;;
  print (py "批次大小: " ++ str_of_Z (args_batch_size args)) ;;
  print (py "学习率: " ++ float_str (args_learning_rate args)) ;;
  print (py "LR 调度器: " ++ args_lr_scheduler args) ;;
  print (py "训练数据量: " ++ str_of_nat (length dataset)) ;;
  (if dataset_truthy eval_dataset
   then print (py "验证数据量: "
               ++ str_of_nat (length (default [] eval_dataset)))
   else ret tt) ;;
  print [] ;;
  let* training_loss := call (CallTrain trainer) (trainer_train trainer) in
  print ([10] ++ py "最终训练 loss: " ++ float_4f training_loss) ;;
  (if dataset_truthy eval_dataset then
     let* eval_loss := call (CallEvaluate trainer) (trainer_evaluate trainer) in
     print (py "最终验证 loss: " ++ float_4f eval_loss)
   else ret tt) ;;
  ret trainer.

Definition export_model (model tokenizer : handle) (output_dir : pystr)
    (gguf_path : option pystr) : M pystr :=
  let merged_dir := os_path_join output_dir (py "merged") in
  os_makedirs merged_dir ;;
  print ([10] ++ py "合并 LoRA 权重...") ;;
  let* merged_model := call (CallMergeAndUnload model) (merge_and_unload model) in
  print (py "保存合并后的模型到: " ++ merged_dir) ;;
  call (CallSavePretrained merged_model merged_dir)
       (save_pretrained merged_model merged_dir) ;;
  call (CallTokenizerSavePretrained tokenizer merged_dir)
       (tokenizer_save_pretrained tokenizer merged_dir) ;;
  (match gguf_path with
   | Some (c :: g) =>
       let gguf_path := c :: g in
       print ([10] ++ py "导出 GGUF 格式需要 llama.cpp 工具") ;;
       print (py "请手动执行以下命令:") ;;
       print (py "  python -m llama_cpp.convert " ++ merged_dir
              ++ py " --outfile " ++ gguf_path ++ py " --outtype q4_k_m")
   | _ => ret tt
   end) ;;
  ret merged_dir.

(** The metadata written to [config.json]. *)
Definition run_config (args : arguments) (timestamp : pystr) (ds : dataset)
    (device : pystr) : json :=
  JDict [ (py "base_model", JStr (args_model args));
          (py "timestamp", JStr timestamp);
          (py "epochs", JInt (args_epochs args));
          (py "learning_rate", JFloat (args_learning_rate args));
          (py "lora_r", JInt (args_lora_r args));
          (py "train_samples", JInt (Z.of_nat (length ds)));
          (py "device", JStr device) ].

(** The body of [main] from its second statement on, for the arguments
    [args] that [parse_args()] returned. *)
Definition main (args : arguments) : M unit :=
  let* data_exists := os_path_exists (args_data args) in
  if negb data_exists then
    print (py "错误: 数据文件不存在: " ++ args_data args) ;;
    sys_exit 1%Z
  else
    let* timestamp := call CallNow now_strftime in
    let output_dir := os_path_join (args_output args) (py "finetune_" ++ timestamp) in
    os_makedirs output_dir ;;
    print banner ;;
    print (py "Qwen3 LoRA 微调") ;;
    print banner ;;
    print (py "数据文件: " ++ args_data args) ;;
    print (py "输出目录: " ++ output_dir) ;;
    print (py "基础模型: " ++ args_model args) ;;
    print banner ;;
    let* cuda := call CallCudaIsAvailable cuda_is_available in
    let* device :=
      (if cuda : bool then ret (py "cuda")
       else
         let* mps := call CallMpsIsAvailable mps_is_available in
         ret (if mps : bool then py "mps" else py "cpu")) in
    let* dataset := load_dataset (args_data args) in
    if (length dataset =? 0)%nat then
      print (py "错误: 没有有效的训练数据") ;;
      sys_exit 1%Z
    else
      let* loaded := setup_model (args_model args) device in
      let model := fst loaded in
      let tokenizer := snd loaded in
      let* model := setup_lora model (args_lora_r args) in
      train model tokenizer dataset args output_dir ;;
      let gguf_path :=
        match args_gguf_output args with
        | Some (c :: g) => c :: g
        | _ => os_path_join output_dir (py "model.gguf")
        end in
      export_model model tokenizer output_dir
        (if args_export_gguf args then Some gguf_path else None) ;;
      write_text (os_path_join output_dir (py "config.json"))
        (json_dump (run_config args timestamp dataset device)) ;;
      print ([10] ++ banner) ;;
      print (py "训练完成!") ;;
      print (py "模型保存于: " ++ output_dir) ;;
      print banner.

(** [main()] as the script calls it: the command line [argv] is parsed, and
    the rest of the body runs on the arguments unless argparse has ended the
    process. *)
Definition main_entry (argv : list pystr) : M unit :=
  let* args := parse_args argv in
  main args.

(** The exit status of the process that runs [main]: 0 when [main] returns,
    the argument of [sys.exit], and 1 for an exception nobody catches. *)
Definition exit_status {A} (r : outcome A) : Z :=
  match r with
  | Returns _ => 0%Z
  | Exits c => c
  | Raises _ => 1%Z
  end.

End Driver.

(** ** A reference [json.loads]

    The theorems below hold for every [json.loads]; the closed examples run
    this decoder, which follows the grammar of Python's [json] module. *)

Module Decoder.

Inductive parsed (A : Type) : Type :=
| Parsed (a : A) (rest : pystr)
| Malformed
| OutOfFuel.
Arguments Parsed {A} a rest.
Arguments Malformed {A}.
Arguments OutOfFuel {A}.

Definition is_json_ws (c : N) : bool :=
  (c =? 32) || (c =? 9) || (c =? 10) || (c =? 13).

Fixpoint skip_ws (s : pystr) : pystr :=
  match s with
  | c :: r => if is_json_ws c then skip_ws r else s
  | [] => []
  end.

Definition is_digit (c : N) : bool := (48 <=? c) && (c <=? 57).

Fixpoint take_digits (s : pystr) : pystr * pystr :=
  match s with
  | c :: r =>
      if is_digit c then let (ds, r') := take_digits r in (c :: ds, r')
      else ([], s)
  | [] => ([], [])
  end.

Definition digits_value (ds : pystr) : Z :=
  fold_left (fun acc c => (10 * acc + Z.of_N (c - 48))%Z) ds 0%Z.

Definition hex_value (c : N) : option N :=
  if is_digit c then Some (c - 48)
  else if (97 <=? c) && (c <=? 102) then Some (c - 87)
  else if (65 <=? c) && (c <=? 70) then Some (c - 55)
  else None.

Definition hex4 (a b c d : N) : option N :=
  match hex_value a, hex_value b, hex_value c, hex_value d with
  | Some a, Some b, Some c, Some d => Some (((a * 16 + b) * 16 + c) * 16 + d)
  | _, _, _, _ => None
  end.

Definition simple_escape (c : N) : option N :=
  if c =? 34 then Some 34          (* quote *)
  else if c =? 92 then Some 92     (* backslash *)
  else if c =? 47 then Some 47     (* slash *)
  else if c =? 98 then Some 8      (* b *)
  else if c =? 102 then Some 12    (* f *)
  else if c =? 110 then Some 10    (* n *)
  else if c =? 114 then Some 13    (* r *)
  else if c =? 116 then Some 9     (* t *)
  else None.

(** The low half of a surrogate pair written as a second [\uXXXX]. *)
Definition low_surrogate (s : pystr) : option (N * pystr) :=
  match s with
  | 92 :: 117 :: a :: b :: c :: d :: r =>
      match hex4 a b c d with
      | Some lo => if (56320 <=? lo) && (lo <=? 57343) then Some (lo, r) else None
      | None => None
      end
  | _ => None
  end.

(** The text of a string after its opening quote, up to the closing one;
    [acc] holds the decoded code points in reverse. *)
Fixpoint scan_string (acc : pystr) (s : pystr) : option (pystr * pystr) :=
  match s with
  | [] => None
  | c :: r =>
      if c =? 34 then Some (rev acc, r)
      else if c <? 32 then None
      else if c =? 92 then
        match r with
        | [] => None
        | e :: r1 =>
            if e =? 117 then
              match r1 with
              | a :: b :: c' :: d :: r2 =>
                  match hex4 a b c' d with
                  | None => None
                  | Some hi =>
                      if (55296 <=? hi) && (hi <=? 56319) then
                        match r2 with
                        | _ :: _ :: _ :: _ :: _ :: _ :: r3 =>
                            match low_surrogate r2 with
                            | Some (lo, _) =>
                                scan_string
                                  (65536 + (hi - 55296) * 1024 + (lo - 56320) :: acc)
                                  r3
                            | None => scan_string (hi :: acc) r2
                            end
                        | _ => scan_string (hi :: acc) r2
                        end
                      else scan_string (hi :: acc) r2
                  end
              | _ => None
              end
            else
              match simple_escape e with
              | Some x => scan_string (x :: acc) r1
              | None => None
              end
        end
      else scan_string (c :: acc) r
  end.

(** [float(text)] for the decimal [m * 10^e], rounded to the nearest
    binary64, ties to even. *)
Definition float_of_decimal (neg : bool) (m e : Z) : float :=
  let sm := if neg then (- m)%Z else m in
  if (0 <=? e)%Z then
    SF2Prim (binary_normalize prec emax (sm * 10 ^ e) 0 neg)
  else
    let d := (10 ^ (- e))%Z in
    let sh := (Z.log2 d + 64)%Z in
    let q := (Z.shiftl m sh / d)%Z in
    let sticky := if (Z.shiftl m sh mod d =? 0)%Z then 0%Z else 1%Z in
    let mant := (2 * q + sticky)%Z in
    SF2Prim (binary_normalize prec emax (if neg then - mant else mant)%Z
                              (- (sh + 1)) neg).

(** A number: an optional minus sign, then a zero or a run of digits that
    does not start with zero, then optionally a point and digits, then
    optionally an exponent.  It is an [int] unless it has a fraction or an
    exponent. *)
Definition scan_sign (s : pystr) : bool * pystr :=
  match s with
  | c :: r => if c =? 45 then (true, r) else (false, s)
  | [] => (false, s)
  end.

Definition scan_int_part (s : pystr) : option (pystr * pystr) :=
  match s with
  | c :: r =>
      if c =? 48 then Some ([48], r)
      else match take_digits s with
           | ([], _) => None
           | (ds, r') => Some (ds, r')
           end
  | [] => None
  end.

Definition scan_fraction (s : pystr) : pystr * pystr :=
  match s with
  | c :: r =>
      if c =? 46 then
        match take_digits r with
        | ([], _) => ([], s)
        | (ds, r') => (ds, r')
        end
      else ([], s)
  | [] => ([], s)
  end.

Definition scan_exponent_sign (s : pystr) : bool * pystr :=
  match s with
  | c :: r =>
      if c =? 45 then (true, r) else if c =? 43 then (false, r) else (false, s)
  | [] => (false, s)
  end.

Definition scan_exponent (s : pystr) : option (Z * pystr) :=
  match s with
  | c :: r =>
      if (c =? 101) || (c =? 69) then
        let (eneg, r1) := scan_exponent_sign r in
        match take_digits r1 with
        | ([], _) => None
        | (ds, r2) =>
            Some ((if eneg then - digits_value ds else digits_value ds)%Z, r2)
        end
      else None
  | [] => None
  end.

Definition scan_number (s : pystr) : option (json * pystr) :=
  let (neg, s1) := scan_sign s in
  match scan_int_part s1 with
  | None => None
  | Some (ids, s2) =>
      let (fds, s3) := scan_fraction s2 in
      match fds, scan_exponent s3 with
      | [], None =>
          Some (JInt (if neg then - digits_value ids else digits_value ids)%Z, s2)
      | _, None =>
          Some (JFloat (float_of_decimal neg (digits_value (ids ++ fds))
                                         (- Z.of_nat (length fds))), s3)
      | _, Some (e, s4) =>
          Some (JFloat (float_of_decimal neg (digits_value (ids ++ fds))
                                         (e - Z.of_nat (length fds))), s4)
      end
  end.

(** The constants, tried in the order of the scanner. *)
Definition scan_constant (s : pystr) : option (json * pystr) :=
  match strip_prefix (py "null") s with
  | Some r => Some (JNull, r)
  | None =>
  match strip_prefix (py "true") s with
  | Some r => Some (JBool true, r)
  | None =>
  match strip_prefix (py "false") s with
  | Some r => Some (JBool false, r)
  | None =>
  match scan_number s with
  | Some x => Some x
  | None =>
  match strip_prefix (py "NaN") s with
  | Some r => Some (JFloat nan, r)
  | None =>
  match strip_prefix (py "Infinity") s with
  | Some r => Some (JFloat infinity, r)
  | None =>
  match strip_prefix (py "-Infinity") s with
  | Some r => Some (JFloat neg_infinity, r)
  | None => None
  end end end end end end end.

Fixpoint scan_value (fuel : nat) (s : pystr) : parsed json :=
  match fuel with
  | O => OutOfFuel
  | S fuel' =>
      match s with
      | [] => Malformed
      | c :: r =>
          if c =? 34 then
            match scan_string [] r with
            | Some (str, r') => Parsed (JStr str) r'
            | None => Malformed
            end
          else if c =? 123 then
            match skip_ws r with
            | c' :: r' =>
                if c' =? 125 then Parsed (JDict []) r'
                else scan_members fuel' [] (c' :: r')
            | [] => Malformed
            end
          else if c =? 91 then
            match skip_ws r with
            | c' :: r' =>
                if c' =? 93 then Parsed (JList []) r'
                else scan_elements fuel' [] (c' :: r')
            | [] => Malformed
            end
          else
            match scan_constant s with
            | Some (v, r') => Parsed v r'
            | None => Malformed
            end
      end
  end

with scan_elements (fuel : nat) (acc : list json) (s : pystr) : parsed json :=
  match fuel with
  | O => OutOfFuel
  | S fuel' =>
      match scan_value fuel' s with
      | Parsed v r =>
          match skip_ws r with
          | c :: r' =>
              if c =? 44 then scan_elements fuel' (v :: acc) (skip_ws r')
              else if c =? 93 then Parsed (JList (rev (v :: acc))) r'
              else Malformed
          | [] => Malformed
          end
      | Malformed => Malformed
      | OutOfFuel => OutOfFuel
      end
  end

with scan_members (fuel : nat) (acc : list (pystr * json)) (s : pystr)
  : parsed json :=
  match fuel with
  | O => OutOfFuel
  | S fuel' =>
      match s with
      | [] => Malformed
      | q :: r =>
          if q =? 34 then
            match scan_string [] r with
            | None => Malformed
            | Some (key, r1) =>
                match skip_ws r1 with
                | [] => Malformed
                | colon :: r2 =>
                    if colon =? 58 then
                      match scan_value fuel' (skip_ws r2) with
                      | Parsed v r3 =>
                          match skip_ws r3 with
                          | c :: r4 =>
                              if c =? 44
                              then scan_members fuel' (dict_set acc key v)
                                                (skip_ws r4)
                              else if c =? 125
                              then Parsed (JDict (dict_set acc key v)) r4
                              else Malformed
                          | [] => Malformed
                          end
                      | Malformed => Malformed
                      | OutOfFuel => OutOfFuel
                      end
                    else Malformed
                end
            end
          else Malformed
      end
  end.

(** What a scan returns with enough fuel: a value and a shorter rest, or
    the verdict that the text is malformed. *)
Definition consumes (s : pystr) (res : parsed json) : Prop :=
  match res with
  | Parsed _ r => (length r < length s)%nat
  | Malformed => True
  | OutOfFuel => False
  end.

(** [json.loads(s)]: one value with only white space around it.  Two units
    of fuel per code point are enough for every input
    ([DecoderFacts.scan_value_fuel]).  The interpreter's limit on the depth of nesting is not
    modelled. *)
Definition loads (s : pystr) : option json :=
  match scan_value (2 * length s + 2) (skip_ws s) with
  | Parsed v r => match skip_ws r with [] => Some v | _ => None end
  | _ => None
  end.

End Decoder.

(** ** Stand-ins for the libraries

    Used to run the script on concrete inputs: the decoder above for
    [json.loads], a clock that shows one fixed time, no accelerator, and
    machine-learning calls that always succeed and leave the file system
    alone.  The split keeps the order and puts the last tenth (rounded up)
    of the records in the test part.  Floats are printed as fixed texts
    (the learning rate of the examples is 0.0002). *)

Definition always {H A} (a : A) : ext H A := fun w => Some (a, w).

Module Encoder.

Definition hex_digit (n : N) : N := if n <? 10 then 48 + n else 87 + n.

(** One code point inside a string, with [ensure_ascii=False]. *)
Definition escape (c : N) : pystr :=
  if c =? 34 then [92; 34]
  else if c =? 92 then [92; 92]
  else if c =? 10 then [92; 110]
  else if c =? 13 then [92; 114]
  else if c =? 9 then [92; 116]
  else if c =? 8 then [92; 98]
  else if c =? 12 then [92; 102]
  else if c <? 32 then [92; 117; 48; 48; hex_digit (c / 16); hex_digit (c mod 16)]
  else [c].

Definition quoted (s : pystr) : pystr := 34 :: flat_map escape s ++ [34].

Fixpoint join_lines (items : list pystr) : pystr :=
  match items with
  | [] => []
  | [x] => x
  | x :: rest => x ++ [44; 10] ++ join_lines rest
  end.

(** The text of [v] with [indent=2], at nesting depth [depth]; floats are
    printed by [float_text]. *)
Fixpoint dump (float_text : float -> pystr) (depth : nat) (v : json) : pystr :=
  let pad := repeat 32 (2 * S depth)%nat in
  let close := [10] ++ repeat 32 (2 * depth)%nat in
  match v with
  | JNull => py "null"
  | JBool true => py "true"
  | JBool false => py "false"
  | JInt n => str_of_Z n
  | JFloat f => float_text f
  | JStr s => quoted s
  | JList [] => py "[]"
  | JList l =>
      [91; 10]
      ++ join_lines (map (fun x => pad ++ dump float_text (S depth) x) l)
      ++ close ++ [93]
  | JDict [] => py "{}"
  | JDict d =>
      [123; 10]
      ++ join_lines
           (map (fun kv => pad ++ quoted (fst kv) ++ [58; 32]
                           ++ dump float_text (S depth) (snd kv)) d)
      ++ close ++ [125]
  end.

End Encoder.

Definition stub_split (ds : dataset) : dataset * dataset :=
  let n_test := Nat.div (length ds + 9) 10 in
  (take (length ds - n_test) ds, drop (length ds - n_test) ds).

(** The arguments of a command line that gives [--data] only: every other
    argument has its default. *)
Definition stub_args (data_path : pystr) : arguments :=
  Arguments data_path (py "./output") (py "Qwen/Qwen2.5-0.5B-Instruct")
            3%Z 1%Z 0.0002%float 512%Z 8%Z false None (py "cosine") 3%Z.

(** A stand-in for argparse on the command lines of the examples; the usage
    and help texts are left out. *)
Definition stub_parse_args (argv : list pystr) (w : world unit)
  : outcome arguments * world unit :=
  match argv with
  | [flag; path] =>
      if pystr_eqb flag (py "--data") then (Returns (stub_args path), w)
      else (Exits 2%Z, w)
  | [flag] =>
      if pystr_eqb flag (py "--help") then (Exits 0%Z, w) else (Exits 2%Z, w)
  | _ => (Exits 2%Z, w)
  end.

(** A code point that no UTF-8 text holds: a surrogate. *)
Definition is_surrogate (c : N) : bool := (55296 <=? c) && (c <=? 57343).

(** [Dataset.from_list] stores the texts as UTF-8. *)
Definition stub_from_list_error (data : list example) : option exn :=
  if existsb (fun r => existsb is_surrogate (text r)) data
  then Some UnicodeEncodeError else None.

Definition stub_libraries : Libraries := {|
  lib_heap := unit;
  parse_args := stub_parse_args;
  json_loads := Decoder.loads;
  json_loads_error := fun _ => JSONDecodeError;
  from_list_error := stub_from_list_error;
  json_dump := Encoder.dump (fun _ => py "0.0002") 0;
  float_str := fun _ => py "0.0002";
  float_4f := fun _ => py "0.0000";
  now_strftime := always (py "20240101_000000");
  cuda_is_available := always false;
  mps_is_available := always false;
  tokenizer_from_pretrained := fun _ => always 1;
  get_pad_token := fun _ => always (Some (py "<pad>"));
  set_pad_token_to_eos := fun _ => always tt;
  model_from_pretrained := fun _ _ => always 2;
  get_peft_model := fun _ _ => always 3;
  print_trainable_parameters := fun _ => always tt;
  train_test_split := fun ds _ _ => always (stub_split ds);
  new_sft_trainer := fun _ => always 4;
  trainer_train := fun _ => always 0%float;
  trainer_evaluate := fun _ => always 0%float;
  merge_and_unload := fun _ => always 5;
  save_pretrained := fun _ _ => always tt;
  tokenizer_save_pretrained := fun _ _ => always tt
|}.

(** A world whose only file is [data_path], holding [content]. *)
Definition stub_world (data_path content : pystr) : world unit :=
  World {[ data_path := File content ]} [] tt [].

(** ** Vocabulary of the statements *)

(** What one line contributes to the dataset when the loop body runs on it:
    no record or one. *)
Definition line_records `{Libraries} (line : pystr) : list example :=
  match load_line line [] with
  | Returns r => r
  | _ => []
  end.

(** A line that holds a JSON object whose [prompt] and [completion] are
    non-empty strings. *)
Definition well_formed_line `{Libraries} (line : pystr) : Prop :=
  exists d p c,
    str_strip line <> []
    /\ json_loads (str_strip line) = Some (JDict d)
    /\ dict_get d (py "prompt") = Some (JStr p) /\ p <> []
    /\ dict_get d (py "completion") = Some (JStr c) /\ c <> [].

(** A non-blank line on which [json.loads] raises. *)
Definition malformed_line `{Libraries} (line : pystr) : Prop :=
  str_strip line <> [] /\ json_loads (str_strip line) = None.

(** The field [k] of the object is absent or the empty string. *)
Definition empty_or_missing (d : list (pystr * json)) (k : pystr) : Prop :=
  dict_get d k = None \/ dict_get d k = Some (JStr []).

(** The field [k] of the object is absent, or a string that [strip()]
    empties. *)
Definition blank_after_strip (d : list (pystr * json)) (k : pystr) : Prop :=
  match dict_get d k with
  | None => True
  | Some (JStr s) => str_strip s = []
  | Some _ => False
  end.

(** The world after the loader has printed the number of records. *)
Definition counted `{Libraries} (ds : list example) (w : world lib_heap)
  : world lib_heap :=
  World (fs w)
    (stdout w ++ [py "加载了 " ++ str_of_nat (length ds) ++ py " 条训练数据"])
    (heap w) (calls w).

(** [spec m w Q]: running [m] from [w] ends in an outcome and a world that
    satisfy [Q]. *)
Definition spec `{Libraries} {A} (m : M A) (w : world lib_heap)
    (Q : outcome A -> world lib_heap -> Prop) : Prop :=
  Q (fst (m w)) (snd (m w)).

(** The calls that [train] makes to set the data up. *)
Definition is_split (ev : libcall) : bool :=
  match ev with CallTrainTestSplit _ _ _ => true | _ => false end.

Definition is_trainer_call (ev : libcall) : bool :=
  match ev with
  | CallTrainTestSplit _ _ _ | CallSFTTrainer _ => true
  | _ => false
  end.

(** The clock and the device queries leave the file system alone. *)
Definition queries_keep_files `{Libraries} : Prop :=
  (forall w a w', now_strftime w = Some (a, w') -> fs w' = fs w)
  /\ (forall w a w', cuda_is_available w = Some (a, w') -> fs w' = fs w)
  /\ (forall w a w', mps_is_available w = Some (a, w') -> fs w' = fs w).


(** The library's split loses and invents no record. *)
Definition split_partitions `{Libraries} : Prop :=
  forall ds test_size seed w tr te w',
    train_test_split ds test_size seed w = Some ((tr, te), w') ->
    (length tr + length te = length ds)%nat.

(** The data sets a trainer built by [train] from [ds] can have: [ds] itself
    and no evaluation set, or the two parts of the library's split of [ds]. *)
Definition trainer_sets `{Libraries} (ds : dataset) (c : sft_config) : Prop :=
  ((20 <? length ds)%nat = false
   /\ sft_train_dataset c = ds /\ sft_eval_dataset c = None)
  \/ ((20 <? length ds)%nat = true
      /\ exists w0 w1 tr te,
           train_test_split ds 0.1%float 42%Z w0 = Some ((tr, te), w1)
           /\ sft_train_dataset c = tr /\ sft_eval_dataset c = Some te).


(** What the log of one run of [train] on [ds] holds. *)
Definition train_events `{Libraries} (ds : dataset) (args : arguments)
    (evs : list libcall) (r : outcome handle) : Prop :=
  List.filter is_split evs
  = (if (20 <? length ds)%nat then [CallTrainTestSplit ds 0.1%float 42%Z] else [])
  /\ (forall c, In (CallSFTTrainer c) evs ->
        trainer_sets ds c
        /\ sft_callbacks c
           = (if dataset_truthy (sft_eval_dataset c)
              then Some [EarlyStoppingCallback (args_early_stopping_patience args)]
              else None)
        /\ ta_eval (sft_args c)
           = (if dataset_truthy (sft_eval_dataset c)
              then Some (EvalArguments (py "steps") 50%Z true) else None))
  /\ (forall t, r = Returns t -> exists c, In (CallSFTTrainer c) evs).

(** Where [main] writes its metadata. *)
Definition config_path (args : arguments) (timestamp : pystr) : pystr :=
  os_path_join (os_path_join (args_output args) (py "finetune_" ++ timestamp))
               (py "config.json").

(** What the functions around [train] do to the log: they add calls, none
    of them to the splitter or the trainer, and never leave the process. *)
Definition plain_run `{Libraries} {A} (w : world lib_heap) (r : outcome A)
    (w' : world lib_heap) : Prop :=
  (forall c, r <> Exits c)
  /\ exists evs, calls w' = calls w ++ evs
                 /\ Forall (fun ev => is_trainer_call ev = false) evs.

(** How a run of [main] from [w] can end, short of an exception: with
    [sys.exit(1)] when the data file is missing or holds no valid record,
    and otherwise by returning, with the metadata on disk and the log made of
    the calls of [train] on the whole dataset between other calls. *)
Definition main_outcome `{Libraries} (args : arguments) (w : world lib_heap)
    (r : outcome unit) (w' : world lib_heap) : Prop :=
  match r with
  | Raises _ => True
  | Exits c =>
      c = 1%Z
      /\ (fs w !! args_data args = None
          \/ exists content,
               fs w !! args_data args = Some (File content)
               /\ load_lines (readlines content) [] = Returns [])
  | Returns _ =>
      exists content ds timestamp device before evs after t,
        fs w !! args_data args = Some (File content)
        /\ load_lines (readlines content) [] = Returns ds
        /\ ds <> []
        /\ fs w' !! config_path args timestamp
           = Some (File (json_dump (run_config args timestamp ds device)))
        /\ calls w' = calls w ++ before ++ evs ++ after
        /\ Forall (fun ev => is_trainer_call ev = false) before
        /\ Forall (fun ev => is_trainer_call ev = false) after
        /\ train_events ds args evs (Returns t)
  end.

(** The data file is missing, or it is there and the loader gets no record
    out of it. *)
Definition no_training_data `{Libraries} (args : arguments)
    (w : world lib_heap) : Prop :=
  fs w !! args_data args = None
  \/ exists content,
       fs w !! args_data args = Some (File content)
       /\ load_lines (readlines content) [] = Returns [].

(** A Python [str]. *)
Definition is_str (v : json) : bool :=
  match v with JStr _ => true | _ => false end.

(** A parsed line the loop body cannot handle: not an object, or an object
    whose [prompt] and [completion] are both truthy and not both strings. *)
Definition unexpected_shape (v : json) : Prop :=
  match v with
  | JDict d =>
      let prompt := dict_get_default d (py "prompt") (JStr []) in
      let completion := dict_get_default d (py "completion") (JStr []) in
      truthy prompt && truthy completion = true
      /\ is_str prompt && is_str completion = false
  | _ => True
  end.

(** The end-of-turn marker of the template. *)
Definition im_end : pystr := py "<|im_end|>".

(** The two queries [main] makes before it loads the data. *)
Definition is_query (ev : libcall) : bool :=
  match ev with
  | CallNow | CallCudaIsAvailable | CallMpsIsAvailable => true
  | _ => false
  end.

(** [a] is a value the library call [f] has returned. *)
Definition returned_by `{Libraries} {A} (f : ext lib_heap A) (a : A) : Prop :=
  exists w0 w1, f w0 = Some (a, w1).

(** How the model is loaded on a device. *)
Definition load_config_for (device : pystr) : load_config :=
  if pystr_eqb device (py "cpu") then LoadCpu else LoadQuantized.

(** The device [main] settles on. *)
Definition device_of (cuda mps : bool) : pystr :=
  if cuda then py "cuda" else if mps then py "mps" else py "cpu".

(** The library calls of the parts of a run, in the order they are made. *)
Definition query_calls (cuda : bool) : list libcall :=
  [CallNow; CallCudaIsAvailable] ++ (if cuda then [] else [CallMpsIsAvailable]).

Definition setup_model_calls (model_name device : pystr) (tokenizer : handle)
    (pad : option pystr) : list libcall :=
  [CallTokenizerFromPretrained model_name; CallGetPadToken tokenizer]
  ++ match pad with None => [CallSetPadTokenToEos tokenizer] | Some _ => [] end
  ++ [CallModelFromPretrained model_name (load_config_for device)].

Definition train_calls (ds : dataset) (cfg : sft_config) (trainer : handle)
  : list libcall :=
  (if (20 <? length ds)%nat then [CallTrainTestSplit ds 0.1%float 42%Z] else [])
  ++ [CallSFTTrainer cfg; CallTrain trainer]
  ++ (if dataset_truthy (sft_eval_dataset cfg) then [CallEvaluate trainer] else []).

Definition export_calls (model merged tokenizer : handle) (dir : pystr)
  : list libcall :=
  [CallMergeAndUnload model; CallSavePretrained merged dir;
   CallTokenizerSavePretrained tokenizer dir].

(** The trainer is configured with what the user asked for. *)
Definition passes_hyperparameters (args : arguments) (output_dir : pystr)
    (cfg : sft_config) : Prop :=
  ta_output_dir (sft_args cfg) = output_dir
  /\ ta_num_train_epochs (sft_args cfg) = args_epochs args
  /\ ta_per_device_train_batch_size (sft_args cfg) = args_batch_size args
  /\ ta_learning_rate (sft_args cfg) = args_learning_rate args
  /\ ta_lr_scheduler_type (sft_args cfg) = args_lr_scheduler args
  /\ sft_max_seq_length cfg = args_max_length args
  /\ sft_dataset_text_field cfg = py "text"
  /\ ta_fp16 (sft_args cfg) = false /\ ta_bf16 (sft_args cfg) = false.

(** The file at [args.data] loads, and gives [ds]. *)
Definition loaded_records `{Libraries} (args : arguments) (w : world lib_heap)
    (ds : dataset) : Prop :=
  exists content,
    fs w !! args_data args = Some (File content)
    /\ load_lines (readlines content) [] = Returns ds.

(** The directory of a run. *)
Definition output_dir_of (args : arguments) (timestamp : pystr) : pystr :=
  os_path_join (args_output args) (py "finetune_" ++ timestamp).

(** A run of [main] that returns, from [w] to [w']: the data file gave
    records, the libraries were called in this order and on these objects,
    the metadata is on disk, and the device is the one chosen from what the
    device queries answered. *)
Definition successful_run `{Libraries} (args : arguments)
    (w w' : world lib_heap) : Prop :=
  exists timestamp cuda mps ds tokenizer pad base lcfg model cfg trainer merged,
    let device := device_of cuda mps in
    loaded_records args w ds /\ ds <> []
    /\ calls w'
       = calls w ++ query_calls cuda
         ++ setup_model_calls (args_model args) device tokenizer pad
         ++ [CallGetPeftModel base lcfg; CallPrintTrainableParameters model]
         ++ train_calls ds cfg trainer
         ++ export_calls model merged tokenizer
              (os_path_join (output_dir_of args timestamp) (py "merged"))
    /\ returned_by (model_from_pretrained (args_model args) (load_config_for device))
                   base
    /\ returned_by (get_peft_model base lcfg) model
    /\ lc_r lcfg = args_lora_r args
    /\ sft_model cfg = model /\ sft_tokenizer cfg = tokenizer
    /\ passes_hyperparameters args (output_dir_of args timestamp) cfg
    /\ returned_by (merge_and_unload model) merged
    /\ fs w' !! config_path args timestamp
       = Some (File (json_dump (run_config args timestamp ds device)))
    /\ returned_by now_strftime timestamp
    /\ returned_by cuda_is_available cuda
    /\ (cuda = false -> returned_by mps_is_available mps).

(** How any run of [main] from [w] ends. *)
Definition main_trace `{Libraries} (args : arguments) (w : world lib_heap)
    (r : outcome unit) (w' : world lib_heap) : Prop :=
  match r with
  | Returns _ => successful_run args w w'
  | Exits c =>
      c = 1%Z
      /\ ((fs w !! args_data args = None /\ calls w' = calls w /\ fs w' = fs w)
          \/ exists timestamp cuda,
               loaded_records args w []
               /\ calls w' = calls w ++ query_calls cuda
               /\ fs w' !! output_dir_of args timestamp = Some Dir)
  | Raises _ =>
      exists evs,
        calls w' = calls w ++ evs
        /\ (Forall (fun ev => is_query ev = true) evs
            \/ exists ds, loaded_records args w ds /\ ds <> [])
  end.

(** What a part of the run leaves behind: it never leaves the process, it
    only adds to the log, and when it returns, [Q] holds of what it
    returned and of what it added. *)
Definition returns_with `{Libraries} {A} (Q : A -> list libcall -> Prop)
    (w : world lib_heap) (r : outcome A) (w' : world lib_heap) : Prop :=
  (forall c, r <> Exits c)
  /\ (exists evs, calls w' = calls w ++ evs)
  /\ match r with
     | Returns a => exists evs, calls w' = calls w ++ evs /\ Q a evs
     | _ => True
     end.

(** * Properties *)

(** ** Strings *)

Lemma strip_prefix_spec (p s r : pystr) :
  strip_prefix p s = Some r <-> s = p ++ r.
Proof.
  revert s. induction p as [|a p IH]; intros [|b s]; simpl.
  - split; congruence.
  - split; congruence.
  - split; congruence.
  - destruct (N.eqb_spec a b) as [->|Hne].
    + rewrite IH. split; congruence.
    + split; congruence.
Qed.

Lemma strip_prefix_app (p r : pystr) : strip_prefix p (p ++ r) = Some r.
Proof. by apply strip_prefix_spec. Qed.

Lemma replace_go_skip (old new : pystr) (k : nat) (s : pystr) :
  replace_go old new k s = replace_go old new O (drop k s).
Proof.
  revert k. induction s as [|c s IH]; intros [|k]; simpl; try reflexivity.
  apply IH.
Qed.

(** The scan at an occurrence of [old]: it is replaced and the scan goes on
    after it. *)
Lemma replace_go_match (o : N) (old' new r : pystr) :
  replace_go (o :: old') new O ((o :: old') ++ r)
  = new ++ replace_go (o :: old') new O r.
Proof.
  change ((o :: old') ++ r) with (o :: (old' ++ r)).
  cbn [replace_go].
  change (o :: old' ++ r) with ((o :: old') ++ r).
  rewrite strip_prefix_app. cbn [length Nat.pred].
  rewrite replace_go_skip, drop_app_length. reflexivity.
Qed.

(** The scan where [old] does not start: the code point is kept. *)
Lemma replace_go_keep (old new : pystr) (c : N) (r : pystr) :
  strip_prefix old (c :: r) = None ->
  replace_go old new O (c :: r) = c :: replace_go old new O r.
Proof. intros H. cbn [replace_go]. rewrite H. reflexivity. Qed.

(** Code points that cannot start [old] are copied. *)
Lemma replace_go_copy (o : N) (old' new x b : pystr) :
  ~ In o x ->
  replace_go (o :: old') new O (x ++ b) = x ++ replace_go (o :: old') new O b.
Proof.
  induction x as [|c x IH]; intros Hx; [reflexivity|].
  change ((c :: x) ++ b) with (c :: (x ++ b)).
  rewrite replace_go_keep.
  - rewrite IH; [reflexivity|]. intros Hin. apply Hx. by right.
  - simpl. destruct (N.eqb_spec o c) as [->|]; [|reflexivity].
    exfalso. apply Hx. by left.
Qed.

(** A match that starts before a code point [w] that [old] holds only as
    its first code point, if at all, ends before it. *)
Lemma match_ends_before (o : N) (old' a : pystr) (w : N) (t r : pystr) :
  ~ In w old' -> a <> [] ->
  strip_prefix (o :: old') (a ++ w :: t) = Some r ->
  exists a', a = (o :: old') ++ a'.
Proof.
  intros Hw Ha H. apply strip_prefix_spec in H.
  apply app_eq_app in H as [l [[-> _]|[Hold Ht]]].
  - by exists l.
  - destruct l as [|x l].
    + exists []. rewrite app_nil_r in Hold |- *. done.
    + exfalso. injection Ht as <- _.
      destruct a as [|a0 a]; [done|]. injection Hold as _ ->.
      apply Hw, in_app_iff. right. by left.
Qed.

Lemma replace_go_app (o : N) (old' new : pystr) (w : N) (t : pystr) :
  ~ In w old' ->
  forall a : pystr,
    replace_go (o :: old') new O (a ++ w :: t)
    = replace_go (o :: old') new O a ++ replace_go (o :: old') new O (w :: t).
Proof.
  intros Hw a.
  remember (length a) as n eqn:Hn. revert a Hn.
  induction n as [n IH] using lt_wf_ind. intros a Hn.
  destruct a as [|c a]; [reflexivity|].
  destruct (strip_prefix (o :: old') ((c :: a) ++ w :: t)) as [r|] eqn:Hm.
  - apply match_ends_before in Hm as [a' Ha']; [|done|done].
    rewrite Ha', <- app_assoc, !replace_go_match, <- app_assoc.
    f_equal. apply (IH (length a')); [|reflexivity].
    subst n. rewrite Ha', length_app. simpl. lia.
  - change ((c :: a) ++ w :: t) with (c :: (a ++ w :: t)) in Hm |- *.
    rewrite replace_go_keep by done.
    rewrite replace_go_keep.
    + simpl. f_equal. apply (IH (length a)); [subst n; simpl; lia|reflexivity].
    + destruct (strip_prefix (o :: old') (c :: a)) as [r|] eqn:Hm'; [|done].
      apply strip_prefix_spec in Hm'.
      assert (strip_prefix (o :: old') (c :: a ++ w :: t) = Some (r ++ w :: t))
        as Hm''.
      { apply strip_prefix_spec.
        change (c :: a ++ w :: t) with ((c :: a) ++ w :: t).
        rewrite Hm', <- app_assoc. reflexivity. }
      congruence.
Qed.

(** An occurrence of [old] anywhere in the text is replaced, and the text on
    either side of it is scanned on its own, when the first code point of
    [old] does not come back later in [old]. *)
Lemma str_replace_occurrence (o : N) (old' new a b : pystr) :
  ~ In o old' ->
  str_replace (o :: old') new (a ++ (o :: old') ++ b)
  = str_replace (o :: old') new a ++ new ++ str_replace (o :: old') new b.
Proof.
  intros Ho. unfold str_replace.
  change ((o :: old') ++ b) with (o :: (old' ++ b)).
  rewrite replace_go_app by done.
  change (o :: (old' ++ b)) with ((o :: old') ++ b).
  rewrite replace_go_match. reflexivity.
Qed.

(** A word that shares no first code point with [old], and whose own first
    code point is not in [old], goes through untouched. *)
Lemma str_replace_foreign (o : N) (old' new : pystr) (w : N) (word' a b : pystr) :
  ~ In w (o :: old') -> ~ In o (w :: word') ->
  str_replace (o :: old') new (a ++ (w :: word') ++ b)
  = str_replace (o :: old') new a ++ (w :: word') ++ str_replace (o :: old') new b.
Proof.
  intros Hw Ho. unfold str_replace.
  change ((w :: word') ++ b) with (w :: (word' ++ b)).
  rewrite replace_go_app.
  - change (w :: (word' ++ b)) with ((w :: word') ++ b).
    rewrite replace_go_copy by done. reflexivity.
  - intros Hin. apply Hw. by right.
Qed.

(** Text without the first code point of [old] is left as it is. *)
Lemma str_replace_untouched (o : N) (old' new x : pystr) :
  ~ In o x -> str_replace (o :: old') new x = x.
Proof.
  intros Hx. unfold str_replace.
  rewrite <- (app_nil_r x) at 1. rewrite replace_go_copy by done.
  simpl. apply app_nil_r.
Qed.

(** ** The loop of the loader *)

Section LoaderFacts.

Context {L : Libraries}.

(** The list built so far is only ever extended at its end. *)
Lemma load_line_data (line : pystr) (data : list example) :
  load_line line data =
  match load_line line [] with
  | Returns r => Returns (data ++ r)
  | Exits c => Exits c
  | Raises e => Raises e
  end.
Proof.
  unfold load_line.
  destruct (str_strip line); [by rewrite app_nil_r|].
  destruct (json_loads _) as [[]|]; try reflexivity.
  destruct (truthy _ && truthy _); [|by rewrite app_nil_r].
  destruct (dict_get_default _ (py "prompt") _); try reflexivity.
  destruct (dict_get_default _ (py "completion") _); reflexivity.
Qed.

Lemma line_records_short (line : pystr) : (length (line_records line) <= 1)%nat.
Proof.
  unfold line_records, load_line.
  destruct (str_strip line); [simpl; lia|].
  destruct (json_loads _) as [[]|]; try (simpl; lia).
  destruct (truthy _ && truthy _); [|simpl; lia].
  destruct (dict_get_default _ (py "prompt") _); try (simpl; lia).
  destruct (dict_get_default _ (py "completion") _); simpl; lia.
Qed.

Lemma load_line_returns (line : pystr) (data data' : list example) :
  load_line line data = Returns data' -> data' = data ++ line_records line.
Proof.
  rewrite load_line_data. unfold line_records.
  destruct (load_line line []); congruence.
Qed.

Lemma load_line_never_exits (line : pystr) (data : list example) (c : Z) :
  load_line line data <> Exits c.
Proof.
  unfold load_line.
  destruct (str_strip line); [done|].
  destruct (json_loads _) as [[]|]; try done.
  destruct (truthy _ && truthy _); [|done].
  destruct (dict_get_default _ (py "prompt") _); try done.
  destruct (dict_get_default _ (py "completion") _); done.
Qed.

Lemma load_lines_never_exits (lines : list pystr) (data : list example) (c : Z) :
  load_lines lines data <> Exits c.
Proof.
  revert data. induction lines as [|line lines IH]; intros data; simpl; [done|].
  destruct (load_line line data) eqn:E; [apply IH| |done].
  by apply load_line_never_exits in E.
Qed.

Lemma load_lines_app (l1 l2 : list pystr) (data : list example) :
  load_lines (l1 ++ l2) data =
  match load_lines l1 data with
  | Returns d => load_lines l2 d
  | Exits c => Exits c
  | Raises e => Raises e
  end.
Proof.
  revert data. induction l1 as [|line l1 IH]; intros data; simpl; [done|].
  destruct (load_line line data); [apply IH|done|done].
Qed.

(** The records come out in the order of the lines. *)
Lemma load_lines_returns (lines : list pystr) (data ds : list example) :
  load_lines lines data = Returns ds ->
  ds = data ++ concat (map line_records lines).
Proof.
  revert data. induction lines as [|line lines IH]; intros data; simpl.
  - intros [= <-]. by rewrite app_nil_r.
  - destruct (load_line line data) as [d| |] eqn:E; try done.
    intros H. apply IH in H. apply load_line_returns in E. subst d.
    by rewrite <- app_assoc in H.
Qed.

(** A line whose [prompt] or [completion] is falsy adds nothing. *)
Lemma load_line_falsy (line : pystr) (d : list (pystr * json))
    (data : list example) :
  json_loads (str_strip line) = Some (JDict d) ->
  truthy (dict_get_default d (py "prompt") (JStr [])) = false
  \/ truthy (dict_get_default d (py "completion") (JStr [])) = false ->
  load_line line data = Returns data.
Proof.
  intros Hj Hf. unfold load_line.
  destruct (str_strip line); [done|]. rewrite Hj.
  destruct Hf as [-> | ->]; [done|]. by rewrite andb_false_r.
Qed.

(** A well-formed line adds exactly its templated text. *)
Lemma load_line_well_formed (line : pystr) (d : list (pystr * json))
    (p c : pystr) (data : list example) :
  str_strip line <> [] ->
  json_loads (str_strip line) = Some (JDict d) ->
  dict_get d (py "prompt") = Some (JStr p) -> p <> [] ->
  dict_get d (py "completion") = Some (JStr c) -> c <> [] ->
  load_line line data
  = Returns (data ++ [Example (chat_text (clean_prompt p) (clean_completion c))]).
Proof.
  intros Hl Hj Hp Hpne Hc Hcne. unfold load_line, dict_get_default.
  destruct (str_strip line); [done|]. rewrite Hj, Hp, Hc.
  destruct p; [done|]. destruct c; [done|]. reflexivity.
Qed.

(** What an appended record looks like. *)
Lemma load_line_accepts (line : pystr) (data : list example) (r : example) :
  load_line line data = Returns (data ++ [r]) ->
  exists d p c,
    json_loads (str_strip line) = Some (JDict d)
    /\ dict_get_default d (py "prompt") (JStr []) = JStr p /\ p <> []
    /\ dict_get_default d (py "completion") (JStr []) = JStr c /\ c <> []
    /\ text r = chat_text (clean_prompt p) (clean_completion c).
Proof.
  unfold load_line.
  assert (Hno : Returns data <> Returns (data ++ [r])).
  { intros [= H]. apply (f_equal length) in H.
    rewrite length_app in H. simpl in H. lia. }
  destruct (str_strip line); [done|].
  destruct (json_loads _) as [[|?|?|?|?|?|d]|]; try done.
  destruct (dict_get_default d (py "prompt") _) as [|?|?|?|pr|?|?] eqn:Hp;
    destruct (dict_get_default d (py "completion") _) as [|?|?|?|co|?|?] eqn:Hc;
    try (destruct pr as [|p0 pr]); try (destruct co as [|c0 co]); simpl;
    repeat match goal with
      | |- context [if ?b then _ else _] => destruct b
      | |- context [match ?x with [] => _ | _ :: _ => _ end] => destruct x
      end; try done.
  intros [= H]. apply app_inv_head in H. injection H as <-.
  eexists _, _, _. repeat split; done.
Qed.

(** Reading the file and running the loop. *)
Lemma load_dataset_returns (path : pystr) (w w' : world lib_heap) (ds : dataset) :
  load_dataset path w = (Returns ds, w') ->
  exists content,
    fs w !! path = Some (File content)
    /\ load_lines (readlines content) [] = Returns ds
    /\ from_list_error ds = None
    /\ w' = World (fs w)
              (stdout w ++ [py "加载了 " ++ str_of_nat (length ds) ++ py " 条训练数据"])
              (heap w) (calls w).
Proof.
  unfold load_dataset, bind, read_text.
  destruct (fs w !! path) as [[content|]|] eqn:Hf; try done.
  destruct (load_lines (readlines content) []) as [data| |] eqn:Hl; try done.
  unfold print, dataset_from_list, ret, raise. simpl.
  destruct (from_list_error data) eqn:Hd; [done|].
  intros [= <- <-]. by exists content.
Qed.

Lemma load_dataset_run (path content : pystr) (w : world lib_heap) :
  fs w !! path = Some (File content) ->
  load_dataset path w =
  match load_lines (readlines content) [] with
  | Returns data =>
      (match from_list_error data with
       | None => Returns data
       | Some e => Raises e
       end,
       World (fs w)
         (stdout w ++ [py "加载了 " ++ str_of_nat (length data) ++ py " 条训练数据"])
         (heap w) (calls w))
  | Exits c => (Exits c, w)
  | Raises e => (Raises e, w)
  end.
Proof.
  intros Hf. unfold load_dataset, bind, read_text. rewrite Hf.
  destruct (load_lines (readlines content) []) as [data| |]; try reflexivity.
  unfold print, dataset_from_list, ret, raise. simpl.
  by destruct (from_list_error data).
Qed.

End LoaderFacts.

(** ** Role labels *)

Ltac label_literals :=
  let u := eval vm_compute in (py "User: ") in
  let c := eval vm_compute in (py "用户: ") in
  let a := eval vm_compute in (py "Assistant: ") in
  let z := eval vm_compute in (py "助手: ") in
  change (py "User: ") with u;
  change (py "用户: ") with c;
  change (py "Assistant: ") with a;
  change (py "助手: ") with z.

Ltac not_among :=
  let H := fresh in
  simpl; intros H;
  repeat (destruct H as [H|H]; [discriminate H|]); exact H.

Lemma str_replace_absent (o : N) (old' new s : pystr) :
  str_contains (o :: old') s = false -> str_replace (o :: old') new s = s.
Proof.
  unfold str_replace. induction s as [|c s IH]; [done|].
  intros H. cbn [str_contains] in H.
  destruct (strip_prefix (o :: old') (c :: s)) eqn:E; [discriminate|].
  rewrite replace_go_keep by done. f_equal. by apply IH.
Qed.

Lemma clean_prompt_user_zh_prefix (x : pystr) :
  clean_prompt (py "用户: " ++ x) = clean_prompt x.
Proof.
  reflexivity.
Qed.

Lemma clean_prompt_user_en (a b : pystr) :
  clean_prompt (a ++ py "User: " ++ b) = clean_prompt a ++ clean_prompt b.
Proof.
  unfold clean_prompt. label_literals.
  rewrite str_replace_foreign by not_among.
  rewrite str_replace_occurrence by not_among. reflexivity.
Qed.

Lemma clean_completion_assistant_zh_prefix (x : pystr) :
  clean_completion (py "助手: " ++ x) = clean_completion x.
Proof.
  reflexivity.
Qed.

Lemma clean_completion_assistant_en (a b : pystr) :
  clean_completion (a ++ py "Assistant: " ++ b)
  = clean_completion a ++ clean_completion b.
Proof.
  unfold clean_completion. label_literals.
  rewrite str_replace_foreign by not_among.
  rewrite str_replace_occurrence by not_among. reflexivity.
Qed.

(** The removal is one pass from left to right: what it leaves is not
    scanned again, so a label can be put together by it. *)
Lemma clean_prompt_single_pass :
  clean_prompt (py "UsUser: er: hi") = py "User: hi".
Proof. vm_compute. reflexivity. Qed.

(** A label of the other role stays where it is. *)
Lemma clean_prompt_keeps (w : N) (word' a b : pystr) :
  ~ In w (py "用户: ") -> ~ In w (py "User: ") ->
  ~ In 29992 (w :: word') -> ~ In 85 (w :: word') ->
  clean_prompt (a ++ (w :: word') ++ b)
  = clean_prompt a ++ (w :: word') ++ clean_prompt b.
Proof.
  unfold clean_prompt. label_literals. intros H1 H2 H3 H4.
  rewrite str_replace_foreign by done.
  rewrite str_replace_foreign by done. reflexivity.
Qed.

Lemma clean_completion_keeps (w : N) (word' a b : pystr) :
  ~ In w (py "助手: ") -> ~ In w (py "Assistant: ") ->
  ~ In 21161 (w :: word') -> ~ In 65 (w :: word') ->
  clean_completion (a ++ (w :: word') ++ b)
  = clean_completion a ++ (w :: word') ++ clean_completion b.
Proof.
  unfold clean_completion. label_literals. intros H1 H2 H3 H4.
  rewrite str_replace_foreign by done.
  rewrite str_replace_foreign by done. reflexivity.
Qed.

(** ** The claims about the loader *)

Lemma empty_or_missing_falsy (d : list (pystr * json)) (k : pystr) :
  empty_or_missing d k -> truthy (dict_get_default d k (JStr [])) = false.
Proof. unfold dict_get_default. by intros [-> | ->]. Qed.

(** C1, as amended: a line whose JSON object has no [prompt] or no
    [completion], or has the empty string there, adds no record: the loop
    body returns the list unchanged, and the dataset is the one the file
    gives without that line.  (The fields themselves are tested as parsed;
    nothing strips them.) *)
Theorem C1_empty_or_missing_field_excluded {L : Libraries}
    (pre post : list pystr) (line : pystr) (d : list (pystr * json))
    (data : list example) :
  json_loads (str_strip line) = Some (JDict d) ->
  empty_or_missing d (py "prompt") \/ empty_or_missing d (py "completion") ->
  load_line line data = Returns data
  /\ load_lines (pre ++ line :: post) data = load_lines (pre ++ post) data.
Proof.
  intros Hj He.
  assert (Hskip : forall acc, load_line line acc = Returns acc).
  { intros acc. apply (load_line_falsy line d acc Hj).
    destruct He as [He|He]; [left|right]; by apply empty_or_missing_falsy. }
  split; [apply Hskip|].
  rewrite !load_lines_app.
  destruct (load_lines pre data) as [acc| |]; try reflexivity.
  simpl. by rewrite Hskip.
Qed.

(** The line [{"prompt":"","completion":"hi"}] yields zero records. *)
Lemma C1_empty_prompt_line_witness :
  @load_lines stub_libraries [jtext "{'prompt':'','completion':'hi'}"] []
  = Returns [].
Proof.
  refine (proj2 (@C1_empty_or_missing_field_excluded stub_libraries [] []
                   (jtext "{'prompt':'','completion':'hi'}")
                   [(py "prompt", JStr []); (py "completion", JStr (py "hi"))]
                   [] _ _)).
  - vm_compute. reflexivity.
  - left. right. vm_compute. reflexivity.
Defined.

(** C1, as stated, fails: a [prompt] that [strip()] would empty is not
    empty for the loader, and the line yields a record. *)
Lemma C1_whitespace_prompt_kept :
  let line := jtext "{'prompt':' ','completion':'hi'}" in
  let d := [(py "prompt", JStr (py " ")); (py "completion", JStr (py "hi"))] in
  @json_loads stub_libraries (str_strip line) = Some (JDict d)
  /\ blank_after_strip d (py "prompt")
  /\ fst (@load_dataset stub_libraries (py "train.jsonl")
            (stub_world (py "train.jsonl") line))
     = Returns [Example (chat_text (py " ") (py "hi"))].
Proof. vm_compute. repeat split; reflexivity. Qed.

(** C2, as amended: a non-blank line on which [json.loads] raises makes the
    loader raise; it returns no dataset and prints nothing.  When the lines
    before it load, the exception is the one [json.loads] raised on that
    line, whichever it is. *)
Theorem C2_malformed_line_raises {L : Libraries}
    (path content : pystr) (w : world lib_heap)
    (pre post : list pystr) (line : pystr) :
  fs w !! path = Some (File content) ->
  readlines content = pre ++ line :: post ->
  malformed_line line ->
  exists e,
    load_dataset path w = (Raises e, w)
    /\ (forall d, load_lines pre [] = Returns d ->
        e = json_loads_error (str_strip line)).
Proof.
  intros Hf Hl [Hne Hj].
  rewrite (load_dataset_run path content w Hf), Hl, load_lines_app.
  destruct (load_lines pre []) as [d|c|e] eqn:Hpre.
  - exists (json_loads_error (str_strip line)). split; [|done].
    simpl. unfold load_line. destruct (str_strip line); [done|].
    by rewrite Hj.
  - by apply load_lines_never_exits in Hpre.
  - exists e. split; [done|]. intros d [=].
Qed.

Lemma C2_malformed_line_witness :
  let content := jtext "{'prompt':'a','completion':'b'}|not json|{'prompt':'c','completion':'d'}" in
  exists e,
    @load_dataset stub_libraries (py "train.jsonl")
      (stub_world (py "train.jsonl") content)
    = (Raises e, stub_world (py "train.jsonl") content)
    /\ (forall d,
          @load_lines stub_libraries
            [jtext "{'prompt':'a','completion':'b'}|"] [] = Returns d ->
          e = @json_loads_error stub_libraries (str_strip (jtext "not json|"))).
Proof.
  intros content.
  apply (@C2_malformed_line_raises stub_libraries (py "train.jsonl") content
           (stub_world (py "train.jsonl") content)
           [jtext "{'prompt':'a','completion':'b'}|"]
           [jtext "{'prompt':'c','completion':'d'}"]
           (jtext "not json|")).
  - vm_compute. reflexivity.
  - vm_compute. reflexivity.
  - split; [vm_compute; discriminate|vm_compute; reflexivity].
Defined.

(** C2, as stated, fails: with a malformed line between two good ones the
    loader raises [JSONDecodeError] and returns nothing, although each of
    the other two lines yields a record. *)
Lemma C2_malformed_line_not_skipped :
  let good1 := jtext "{'prompt':'a','completion':'b'}|" in
  let bad := jtext "not json|" in
  let good2 := jtext "{'prompt':'c','completion':'d'}" in
  @json_loads stub_libraries (str_strip bad) = None
  /\ Decoder.scan_value 18 (py "not json") = Decoder.Malformed
  /\ @line_records stub_libraries good1 = [Example (chat_text (py "a") (py "b"))]
  /\ @line_records stub_libraries good2 = [Example (chat_text (py "c") (py "d"))]
  /\ fst (@load_dataset stub_libraries (py "train.jsonl")
            (stub_world (py "train.jsonl") (good1 ++ bad ++ good2)))
     = Raises JSONDecodeError.
Proof. vm_compute. repeat split; reflexivity. Qed.

(** C3: every record the loader accepts is templated from the prompt with
    the labels "用户: " and "User: " replaced by nothing and the completion
    with "助手: " and "Assistant: " replaced by nothing; a field that starts
    with one of its labels loses it; and the prompt "User: hi" with the
    completion "Assistant: hello" gives a text that holds "hi" and "hello"
    and none of the four labels. *)
Theorem C3_role_labels_removed {L : Libraries}
    (line : pystr) (data : list example) (r : example) :
  load_line line data = Returns (data ++ [r]) ->
  (exists d p c,
      json_loads (str_strip line) = Some (JDict d)
      /\ dict_get_default d (py "prompt") (JStr []) = JStr p
      /\ dict_get_default d (py "completion") (JStr []) = JStr c
      /\ text r =
         chat_text
           (str_replace (py "User: ") [] (str_replace (py "用户: ") [] p))
           (str_replace (py "Assistant: ") [] (str_replace (py "助手: ") [] c)))
  /\ (forall x, clean_prompt (py "用户: " ++ x) = clean_prompt x)
  /\ (forall x, clean_prompt (py "User: " ++ x) = clean_prompt x)
  /\ (forall x, clean_completion (py "助手: " ++ x) = clean_completion x)
  /\ (forall x, clean_completion (py "Assistant: " ++ x) = clean_completion x)
  /\ (let t := chat_text (clean_prompt (py "User: hi"))
                         (clean_completion (py "Assistant: hello")) in
      t = py "<|im_start|>user" ++ [10] ++ py "hi<|im_end|>" ++ [10]
          ++ py "<|im_start|>assistant" ++ [10] ++ py "hello<|im_end|>"
      /\ str_contains (py "hi") t = true
      /\ str_contains (py "hello") t = true
      /\ forallb (fun label => negb (str_contains label t))
           [py "用户: "; py "User: "; py "助手: "; py "Assistant: "] = true).
Proof.
  intros H. split.
  - apply load_line_accepts in H as (d & p & c & Hj & Hp & _ & Hc & _ & Ht).
    exists d, p, c. done.
  - split; [apply clean_prompt_user_zh_prefix|].
    split; [intros x; apply (clean_prompt_user_en [] x)|].
    split; [apply clean_completion_assistant_zh_prefix|].
    split; [intros x; apply (clean_completion_assistant_en [] x)|].
    vm_compute. repeat split; reflexivity.
Qed.

Lemma C3_role_labels_witness :
  exists d p c,
    @json_loads stub_libraries
      (str_strip (jtext "{'prompt':'User: hi','completion':'Assistant: hello'}|"))
    = Some (JDict d)
    /\ dict_get_default d (py "prompt") (JStr []) = JStr p
    /\ dict_get_default d (py "completion") (JStr []) = JStr c
    /\ py "<|im_start|>user" ++ [10] ++ py "hi<|im_end|>" ++ [10]
       ++ py "<|im_start|>assistant" ++ [10] ++ py "hello<|im_end|>"
       = chat_text
           (str_replace (py "User: ") [] (str_replace (py "用户: ") [] p))
           (str_replace (py "Assistant: ") [] (str_replace (py "助手: ") [] c)).
Proof.
  refine (proj1 (@C3_role_labels_removed stub_libraries
            (jtext "{'prompt':'User: hi','completion':'Assistant: hello'}|") []
            (Example (py "<|im_start|>user" ++ [10] ++ py "hi<|im_end|>" ++ [10]
                      ++ py "<|im_start|>assistant" ++ [10]
                      ++ py "hello<|im_end|>")) _)).
  vm_compute. reflexivity.
Defined.

Lemma load_lines_well_formed {L : Libraries} (lines : list pystr) :
  Forall well_formed_line lines ->
  forall data, exists ds,
    load_lines lines data = Returns ds
    /\ length ds = (length data + length lines)%nat.
Proof.
  induction 1 as [|line lines Hw _ IH]; intros data; simpl.
  - exists data. split; [done|lia].
  - destruct Hw as (d & p & c & Hne & Hj & Hp & Hpne & Hc & Hcne).
    rewrite (load_line_well_formed line d p c data) by done.
    destruct (IH (data ++ [Example (chat_text (clean_prompt p) (clean_completion c))]))
      as (ds & Hds & Hlen).
    exists ds. split; [done|].
    rewrite Hlen, length_app. simpl. lia.
Qed.

(** C4, as amended: when every line of the file holds a JSON object with a
    non-empty [prompt] and a non-empty [completion], the loop builds one
    record per line and the count is printed; the loader returns these
    records, as many as the file has lines, when [Dataset.from_list] accepts
    them, and raises the exception of [Dataset.from_list] when it does
    not. *)
Theorem C4_one_record_per_line {L : Libraries}
    (path content : pystr) (w : world lib_heap) :
  fs w !! path = Some (File content) ->
  Forall well_formed_line (readlines content) ->
  exists ds,
    ds = concat (map line_records (readlines content))
    /\ length ds = length (readlines content)
    /\ (from_list_error ds = None ->
        load_dataset path w = (Returns ds, counted ds w))
    /\ (forall e, from_list_error ds = Some e ->
        load_dataset path w = (Raises e, counted ds w)).
Proof.
  intros Hf Hall.
  destruct (load_lines_well_formed (readlines content) Hall []) as (ds & Hds & Hlen).
  exists ds. split; [apply (load_lines_returns _ _ _ Hds)|].
  split; [simpl in Hlen; lia|].
  rewrite (load_dataset_run path content w Hf), Hds. unfold counted.
  split; [by intros ->|by intros e ->].
Qed.

Lemma C4_one_record_per_line_witness :
  let content := jtext "{'prompt':'User: hi','completion':'Assistant: hello'}|{'completion':'x','prompt':'say User: hi'}|{'prompt':' ','completion':'User: '}|" in
  length (readlines content) = 3%nat
  /\ exists ds w',
       @load_dataset stub_libraries (py "train.jsonl")
         (stub_world (py "train.jsonl") content) = (Returns ds, w')
       /\ length ds = length (readlines content).
Proof.
  intros content. split; [reflexivity|].
  destruct (@C4_one_record_per_line stub_libraries (py "train.jsonl") content
              (stub_world (py "train.jsonl") content))
    as (ds & Hds & Hlen & Hret & _).
  - vm_compute. reflexivity.
  - vm_compute readlines.
    repeat (constructor;
            [eexists _, _, _; vm_compute;
             repeat split; (reflexivity || discriminate)|]).
    constructor.
  - exists ds, (@counted stub_libraries ds (stub_world (py "train.jsonl") content)).
    split; [|exact Hlen].
    apply Hret. rewrite Hds. vm_compute. reflexivity.
Defined.

(** C4, as stated, fails: the one line of this file holds an object whose
    [prompt] and [completion] are non-empty strings, the loop builds its
    record and the count is printed, but [Dataset.from_list] cannot store a
    lone surrogate and raises [UnicodeEncodeError]: the loader returns no
    record. *)
Lemma C4_lone_surrogate_not_loaded :
  let line := jtext "{'prompt':'\ud800','completion':'b'}" in
  let w := stub_world (py "train.jsonl") line in
  readlines line = [line]
  /\ @json_loads stub_libraries (str_strip line)
     = Some (JDict [(py "prompt", JStr [55296]); (py "completion", JStr (py "b"))])
  /\ Forall (@well_formed_line stub_libraries) (readlines line)
  /\ @load_lines stub_libraries (readlines line) []
     = Returns [Example (chat_text [55296] (py "b"))]
  /\ @load_dataset stub_libraries (py "train.jsonl") w
     = (Raises UnicodeEncodeError,
        World (fs w) [py "加载了 1 条训练数据"] tt [])
  /\ ~ (exists ds w', @load_dataset stub_libraries (py "train.jsonl") w
                       = (Returns ds, w')).
Proof.
  intros line w.
  assert (Hrun : @load_dataset stub_libraries (py "train.jsonl") w
                 = (Raises UnicodeEncodeError,
                    World (fs w) [py "加载了 1 条训练数据"] tt []))
    by (vm_compute; reflexivity).
  split; [vm_compute; reflexivity|].
  split; [vm_compute; reflexivity|].
  split.
  { vm_compute readlines. constructor; [|constructor].
    eexists _, _, _. vm_compute. repeat split; (reflexivity || discriminate). }
  split; [vm_compute; reflexivity|].
  split; [exact Hrun|].
  intros (ds & w' & H). rewrite Hrun in H. discriminate H.
Qed.

(** C8: when the loader returns, its records are, in the order of the lines
    of the file, what each line yields on its own, which is no record or
    one. *)
Theorem C8_file_order_preserved {L : Libraries}
    (path : pystr) (w w' : world lib_heap) (ds : dataset) :
  load_dataset path w = (Returns ds, w') ->
  exists content,
    fs w !! path = Some (File content)
    /\ ds = concat (map line_records (readlines content))
    /\ Forall (fun line => (length (line_records line) <= 1)%nat)
              (readlines content).
Proof.
  intros H. apply load_dataset_returns in H as (content & Hf & Hl & _ & _).
  exists content. split; [done|]. split.
  - by apply load_lines_returns in Hl.
  - apply Forall_forall. intros line _. apply line_records_short.
Qed.

Lemma C8_file_order_witness :
  let content := jtext "{'prompt':'1','completion':'a'}||{'prompt':'','completion':'b'}|{'prompt':'3','completion':'c'}|{'prompt':'2','completion':'d'}" in
  let ds := [Example (chat_text (py "1") (py "a"));
             Example (chat_text (py "3") (py "c"));
             Example (chat_text (py "2") (py "d"))] in
  exists content',
    fs (stub_world (py "train.jsonl") content) !! py "train.jsonl"
    = Some (File content')
    /\ ds = concat (map (@line_records stub_libraries) (readlines content'))
    /\ Forall (fun line => (length (@line_records stub_libraries line) <= 1)%nat)
              (readlines content').
Proof.
  intros content ds.
  eapply (@C8_file_order_preserved stub_libraries (py "train.jsonl")
            (stub_world (py "train.jsonl") content) _ ds).
  vm_compute. reflexivity.
Defined.

(** C9: an occurrence of a label anywhere in its field is removed, not only
    a leading one: for "User: " and "用户: " in a prompt and for
    "Assistant: " and "助手: " in a completion, between any two texts; where
    the texts around a Chinese label hold no label themselves, what is left
    is the two texts.  The prompt "say User: hi" becomes "say hi" and
    "说 用户: 你好" becomes "说 你好".  The labels of the other role stay: in
    a prompt, "Assistant: " and "助手: " are kept, and in a completion,
    "User: " and "用户: " are kept. *)
Theorem C9_labels_removed_anywhere_by_role :
  (forall a b, clean_prompt (a ++ py "User: " ++ b)
               = clean_prompt a ++ clean_prompt b)
  /\ (forall a b, clean_prompt (a ++ py "用户: " ++ b)
                  = str_replace (py "User: ") []
                      (str_replace (py "用户: ") [] a
                       ++ str_replace (py "用户: ") [] b))
  /\ (forall a b,
        str_contains (py "用户: ") a = false ->
        str_contains (py "用户: ") b = false ->
        str_contains (py "User: ") (a ++ b) = false ->
        clean_prompt (a ++ py "用户: " ++ b) = a ++ b)
  /\ (forall a b, clean_completion (a ++ py "Assistant: " ++ b)
                  = clean_completion a ++ clean_completion b)
  /\ (forall a b, clean_completion (a ++ py "助手: " ++ b)
                  = str_replace (py "Assistant: ") []
                      (str_replace (py "助手: ") [] a
                       ++ str_replace (py "助手: ") [] b))
  /\ (forall a b,
        str_contains (py "助手: ") a = false ->
        str_contains (py "助手: ") b = false ->
        str_contains (py "Assistant: ") (a ++ b) = false ->
        clean_completion (a ++ py "助手: " ++ b) = a ++ b)
  /\ clean_prompt (py "say User: hi") = py "say hi"
  /\ clean_prompt (py "说 用户: 你好") = py "说 你好"
  /\ clean_completion (py "so Assistant: ok") = py "so ok"
  /\ clean_completion (py "答 助手: 好的") = py "答 好的"
  /\ (forall a b, clean_prompt (a ++ py "Assistant: " ++ b)
                  = clean_prompt a ++ py "Assistant: " ++ clean_prompt b)
  /\ (forall a b, clean_prompt (a ++ py "助手: " ++ b)
                  = clean_prompt a ++ py "助手: " ++ clean_prompt b)
  /\ (forall a b, clean_completion (a ++ py "User: " ++ b)
                  = clean_completion a ++ py "User: " ++ clean_completion b)
  /\ (forall a b, clean_completion (a ++ py "用户: " ++ b)
                  = clean_completion a ++ py "用户: " ++ clean_completion b)
  /\ fst (@load_dataset stub_libraries (py "train.jsonl")
            (stub_world (py "train.jsonl")
               (jtext "{'prompt':'say User: hi Assistant: ok','completion':'Assistant: User: yes'}")))
     = Returns [Example (chat_text (py "say hi Assistant: ok") (py "User: yes"))]
  /\ fst (@load_dataset stub_libraries (py "train.jsonl")
            (stub_world (py "train.jsonl")
               (jtext "{'prompt':'说 用户: 你好 助手: 好','completion':'答 助手: 用户: 是'}")))
     = Returns [Example (chat_text (py "说 你好 助手: 好") (py "答 用户: 是"))].
Proof.
  split; [apply clean_prompt_user_en|].
  split; [intros a b; unfold clean_prompt; label_literals;
          rewrite str_replace_occurrence by not_among; reflexivity|].
  split.
  { intros a b. unfold clean_prompt. label_literals. intros Ha Hb Hab.
    rewrite str_replace_occurrence by not_among.
    rewrite (str_replace_absent _ _ [] a Ha), (str_replace_absent _ _ [] b Hb).
    apply (str_replace_absent _ _ [] (a ++ b) Hab). }
  split; [apply clean_completion_assistant_en|].
  split; [intros a b; unfold clean_completion; label_literals;
          rewrite str_replace_occurrence by not_among; reflexivity|].
  split.
  { intros a b. unfold clean_completion. label_literals. intros Ha Hb Hab.
    rewrite str_replace_occurrence by not_among.
    rewrite (str_replace_absent _ _ [] a Ha), (str_replace_absent _ _ [] b Hb).
    apply (str_replace_absent _ _ [] (a ++ b) Hab). }
  split; [vm_compute; reflexivity|].
  split; [vm_compute; reflexivity|].
  split; [vm_compute; reflexivity|].
  split; [vm_compute; reflexivity|].
  split; [intros a b; label_literals; apply clean_prompt_keeps; not_among|].
  split; [intros a b; label_literals; apply clean_prompt_keeps; not_among|].
  split; [intros a b; label_literals; apply clean_completion_keeps; not_among|].
  split; [intros a b; label_literals; apply clean_completion_keeps; not_among|].
  split; vm_compute; reflexivity.
Qed.

(** ** Running the script step by step *)

Section Steps.

Context {L : Libraries}.

Lemma spec_bind {A B} (m : M A) (k : A -> M B) (w : world lib_heap) Q :
  spec m w (fun r w1 =>
              match r with
              | Returns a => spec (k a) w1 Q
              | Exits c => Q (Exits c) w1
              | Raises e => Q (Raises e) w1
              end) ->
  spec (bind m k) w Q.
Proof. unfold spec, bind. by destruct (m w) as [[a|c|e] w1]. Qed.

Lemma spec_use {A} (m : M A) (w : world lib_heap) (Q' Q : _ -> _ -> Prop) :
  spec m w Q' -> (forall r w', Q' r w' -> Q r w') -> spec m w Q.
Proof. unfold spec. auto. Qed.

Lemma spec_run {A} (m : M A) (w w' : world lib_heap) (r : outcome A) Q :
  spec m w Q -> m w = (r, w') -> Q r w'.
Proof. unfold spec. intros H E. by rewrite E in H. Qed.

Lemma spec_ret {A} (a : A) (w : world lib_heap) Q :
  Q (Returns a) w -> spec (ret a) w Q.
Proof. done. Qed.

Lemma spec_print (s : pystr) (w : world lib_heap) Q :
  Q (Returns tt) (World (fs w) (stdout w ++ [s]) (heap w) (calls w)) ->
  spec (print s) w Q.
Proof. done. Qed.

Lemma spec_sys_exit {A} (c : Z) (w : world lib_heap) (Q : outcome A -> _ -> Prop) :
  Q (Exits c) w -> spec (sys_exit c) w Q.
Proof. done. Qed.

Lemma spec_call {A} (ev : libcall) (f : ext lib_heap A) (w : world lib_heap) Q :
  (forall a w0, f w = Some (a, w0) ->
     Q (Returns a) (World (fs w0) (stdout w0) (heap w0) (calls w ++ [ev]))) ->
  (f w = None ->
     Q (Raises LibraryError) (World (fs w) (stdout w) (heap w) (calls w ++ [ev]))) ->
  spec (call ev f) w Q.
Proof.
  intros Hs Hn. unfold spec, call.
  destruct (f w) as [[a w0]|] eqn:E; simpl; auto.
Qed.

Lemma spec_os_makedirs (p : pystr) (w : world lib_heap) Q :
  (forall f, mkdirs (ancestors p ++ [p]) (fs w) = Some f ->
     Q (Returns tt) (World f (stdout w) (heap w) (calls w))) ->
  (Q (Raises OSError) w) ->
  spec (os_makedirs p) w Q.
Proof.
  intros Hs Hn. unfold spec, os_makedirs.
  destruct (mkdirs _ _) as [f|] eqn:E; simpl; auto.
Qed.

Lemma spec_write_text (p c : pystr) (w : world lib_heap) Q :
  Q (Returns tt) (World (<[p := File c]> (fs w)) (stdout w) (heap w) (calls w)) ->
  Q (Raises OSError) w ->
  spec (write_text p c) w Q.
Proof.
  intros Hs Hn. unfold spec, write_text.
  destruct (fs w !! p) as [[]|]; try done;
    destruct (parent_exists p (fs w)); done.
Qed.

(** [os.makedirs] adds directories only. *)
Lemma mkdirs_lookup (ps : list pystr) (f f' : filesystem) (p : pystr) :
  mkdirs ps f = Some f' -> f' !! p = f !! p \/ f' !! p = Some Dir.
Proof.
  revert f. induction ps as [|q ps IH]; intros f; simpl.
  - intros [= ->]. by left.
  - intros H.
    assert (Hm : mkdirs ps (<[q := Dir]> f) = Some f').
    { destruct (f !! q) as [[]|]; done. }
    destruct (IH _ Hm) as [-> | ->]; [|by right].
    destruct (decide (q = p)) as [->|Hne].
    + right. apply lookup_insert_eq.
    + left. by apply lookup_insert_ne.
Qed.

Lemma mkdirs_keeps_files (ps : list pystr) (f f' : filesystem) (p c : pystr) :
  mkdirs ps f = Some f' -> f !! p = Some (File c) -> f' !! p = Some (File c).
Proof.
  revert f. induction ps as [|q ps IH]; intros f; simpl.
  - by intros [= ->].
  - intros H Hp.
    destruct (decide (q = p)) as [->|Hne].
    + by rewrite Hp in H.
    + apply (IH (<[q := Dir]> f)).
      * destruct (f !! q) as [[]|]; done.
      * by rewrite lookup_insert_ne.
Qed.

End Steps.

(** One step of the script. *)
Ltac step :=
  lazymatch goal with
  | |- spec (bind _ _) _ _ => apply spec_bind
  | |- spec (ret _) _ _ => apply spec_ret
  | |- spec (print _) _ _ => apply spec_print
  | |- spec (sys_exit _) _ _ => apply spec_sys_exit
  | |- spec (call _ _) _ _ =>
      let a := fresh "a" in let w0 := fresh "w" in let E := fresh "E" in
      apply spec_call; [intros a w0 E|intros E]
  | |- spec (os_makedirs _) _ _ =>
      let f := fresh "f" in let E := fresh "E" in
      apply spec_os_makedirs; [intros f E|]
  | |- spec (write_text _ _) _ _ => apply spec_write_text
  | |- spec (if ?b then _ else _) _ _ => destruct b eqn:?
  | |- spec (match ?x with _ => _ end) _ _ => destruct x eqn:?
  end; cbv beta iota zeta; cbn [fst snd fs stdout heap calls].

(** The log grew by an explicit list of calls. *)
Ltac log_grew :=
  cbn [calls fs stdout heap]; rewrite <- ?app_assoc; cbn [app];
  first [ reflexivity | symmetry; apply app_nil_r ].

(** ** Set-up, training and export *)

Section DriverFacts.

Context {L : Libraries}.

Ltac plain_leaf :=
  split; [done|eexists; split; [log_grew|repeat constructor]].

Lemma setup_model_spec (model_name device : pystr) (w : world lib_heap) :
  spec (setup_model model_name device) w (plain_run w).
Proof. unfold setup_model. repeat step; plain_leaf. Qed.

Lemma setup_lora_spec (model : handle) (lora_r : Z) (w : world lib_heap) :
  spec (setup_lora model lora_r) w (plain_run w).
Proof. unfold setup_lora. repeat step; plain_leaf. Qed.

Lemma export_model_spec (model tokenizer : handle) (output_dir : pystr)
    (gguf_path : option pystr) (w : world lib_heap) :
  spec (export_model model tokenizer output_dir gguf_path) w (plain_run w).
Proof. unfold export_model. repeat step; plain_leaf. Qed.

Lemma train_spec (model tokenizer : handle) (ds : dataset) (args : arguments)
    (output_dir : pystr) (w : world lib_heap) :
  spec (train model tokenizer ds args output_dir) w
    (fun r w' =>
       (forall c, r <> Exits c)
       /\ exists evs, calls w' = calls w ++ evs /\ train_events ds args evs r).
Proof.
  unfold train. step. step.
  - (* more than twenty records: the split is asked for *)
    step. step.
    + destruct a as [tr te]. step. cbn [fst snd].
      destruct (dataset_truthy (Some te)) eqn:Ht;
        repeat step;
        (split; [done|]; eexists; split; [log_grew|];
         unfold train_events; cbn [List.filter is_split]; rewrite Heqb;
         split; [reflexivity|]; split;
         [ intros c Hin; cbn [In] in Hin;
           repeat (destruct Hin as [Hin|Hin]; try discriminate Hin);
           [injection Hin as <-; cbn [sft_eval_dataset sft_callbacks sft_args
                                       ta_eval sft_train_dataset];
            rewrite Ht; split; [|done];
            right; split; [done|]; by exists w, w0, tr, te
           | destruct Hin ]
         | intros t Hr; first [discriminate Hr | eexists; cbn [In]; eauto] ]).
    + split; [done|]. eexists. split; [log_grew|].
      unfold train_events. cbn [List.filter is_split]. rewrite Heqb.
      split; [reflexivity|]. split.
      * intros c Hin. cbn [In] in Hin.
        repeat (destruct Hin as [Hin|Hin]; try discriminate Hin). destruct Hin.
      * intros t Hr. discriminate Hr.
  - (* at most twenty records: no split *)
    step. cbn [fst snd dataset_truthy].
    repeat step;
      (split; [done|]; eexists; split; [log_grew|];
       unfold train_events; cbn [List.filter is_split]; rewrite Heqb;
       split; [reflexivity|]; split;
       [ intros c Hin; cbn [In] in Hin;
         repeat (destruct Hin as [Hin|Hin]; try discriminate Hin);
         [injection Hin as <-; cbn [sft_eval_dataset sft_callbacks sft_args
                                     ta_eval sft_train_dataset dataset_truthy];
          split; [|done]; by left
         | destruct Hin ]
       | intros t Hr; first [discriminate Hr | eexists; cbn [In]; eauto] ]).
Qed.

Lemma spec_os_path_exists (p : pystr) (w : world lib_heap) Q :
  Q (Returns (bool_decide (is_Some (fs w !! p)))) w ->
  spec (os_path_exists p) w Q.
Proof. done. Qed.

Lemma load_dataset_spec (path : pystr) (w : world lib_heap) :
  spec (load_dataset path) w
    (fun r w' =>
       match r with
       | Returns ds =>
           exists content,
             fs w !! path = Some (File content)
             /\ load_lines (readlines content) [] = Returns ds
             /\ fs w' = fs w /\ calls w' = calls w
       | Exits _ => False
       | Raises _ => True
       end).
Proof.
  unfold spec.
  destruct (load_dataset path w) as [[ds|c|e] w'] eqn:E; simpl; [| |done].
  - apply load_dataset_returns in E as (content & Hf & Hl & _ & ->).
    by exists content.
  - unfold load_dataset, bind, read_text in E.
    destruct (fs w !! path) as [[content|]|]; try done.
    destruct (load_lines (readlines content) []) as [data| |] eqn:Hl; try done.
    + unfold print, dataset_from_list, ret, raise in E. simpl in E.
      by destruct (from_list_error data).
    + by apply load_lines_never_exits in Hl.
Qed.

Lemma main_spec (args : arguments) (w : world lib_heap) :
  queries_keep_files ->
  spec (main args) w (main_outcome args w).
Proof.
  intros (Hnow & Hcuda & Hmps).
  unfold main. step. apply spec_os_path_exists. cbv beta iota.
  destruct (fs w !! args_data args) as [nd|] eqn:Hdata.
  2:{ rewrite bool_decide_eq_false_2 by (by intros [? ?]). cbn [negb].
      repeat step. split; [done|]. by left. }
  rewrite bool_decide_eq_true_2 by eauto. cbn [negb].
  step. step; [|done]. apply Hnow in E; cbn [fs] in E.
  rename a into timestamp.
  step. step; [|done]. cbn [fs] in E0.
  do 14 step.
  step. step; [|done]. apply Hcuda in E1; cbn [fs] in E1.
  (* the device *)
  step.
  apply (spec_use _ _
           (fun r w' =>
              match r with
              | Returns _ =>
                  fs w' = f
                  /\ exists pre, calls w' = calls w ++ pre
                       /\ Forall (fun ev => is_trainer_call ev = false) pre
              | Exits _ => False
              | Raises _ => True
              end)).
  { destruct a; repeat step; try done;
      (split; [first [done | apply Hmps in E2; cbn [fs] in E2; congruence]
              |eexists; split; [log_grew|repeat constructor]]). }
  intros [device| |] w2; [|done|done]. intros (Hfs2 & pre & Hc2 & Hpre).
  (* the dataset *)
  step. eapply spec_use; [apply load_dataset_spec|]. cbv beta.
  intros [ds| |] w3; [|done|done]. intros (content & Hf & Hl & Hfs3 & Hc3).
  assert (Hinit : fs w !! args_data args = Some (File content)).
  { rewrite Hfs2 in Hf.
    destruct (mkdirs_lookup _ _ _ (args_data args) E0) as [H|H];
      rewrite H in Hf; [by rewrite E in Hf|done]. }
  destruct ds as [|ex ds]; cbn [length Nat.eqb].
  { repeat step. split; [done|]. right. eauto. }
  set (dataset0 := ex :: ds) in *.
  (* set-up *)
  step. eapply spec_use; [apply setup_model_spec|]. cbv beta.
  intros r w4 (Hne & evs1 & Hc4 & Hev1).
  destruct r as [[model tok]|c|e]; [|by destruct (Hne c)|done].
  cbv beta iota zeta; cbn [fst snd].
  step. eapply spec_use; [apply setup_lora_spec|]. cbv beta.
  intros r w5 (Hne5 & evs2 & Hc5 & Hev2).
  destruct r as [model'|c|e]; [|by destruct (Hne5 c)|done].
  cbv beta iota zeta.
  (* training *)
  step. eapply spec_use; [apply train_spec|]. cbv beta.
  intros r w6 (Hne6 & evs3 & Hc6 & Hev3).
  destruct r as [trainer|c|e]; [|by destruct (Hne6 c)|done].
  cbv beta iota zeta.
  (* export *)
  step. eapply spec_use; [apply export_model_spec|]. cbv beta.
  intros r w7 (Hne7 & evs4 & Hc7 & Hev4).
  destruct r as [merged|c|e]; [|by destruct (Hne7 c)|done].
  cbv beta iota zeta.
  (* the metadata *)
  step. step; [|done].
  repeat step.
  exists content, dataset0, timestamp, device, (pre ++ evs1 ++ evs2), evs3, evs4, trainer.
  split; [done|]. split; [done|]. split; [done|].
  split; [apply lookup_insert_eq|].
  split.
  { cbn [calls]. rewrite Hc7, Hc6, Hc5, Hc4, Hc3, Hc2.
    rewrite <- !app_assoc. reflexivity. }
  split; [by repeat apply Forall_app_2|].
  done.
Qed.
End DriverFacts.


(** ** The claims about training and the driver *)

(** The stand-in libraries meet the assumptions made on the real ones. *)
Lemma stub_queries_keep_files : @queries_keep_files stub_libraries.
Proof. repeat split; intros w a w' [= _ <-]; reflexivity. Qed.


Lemma stub_split_partitions : @split_partitions stub_libraries.
Proof.
  intros ds ts seed w tr te w' [= <- <- _].
  rewrite length_take, length_drop.
  change (Nat.divmod (length ds + 9) 9 0 9).1 with ((length ds + 9) / 10)%nat.
  lia.
Qed.



(** The boundary, run on the stand-ins: twenty records are trained on as
    they are, twenty-one are split into eighteen and three. *)
Lemma train_at_the_boundary :
  let calls_of n :=
    calls (snd (@train stub_libraries 3 1 (repeat (Example (py "x")) n)
                  (stub_args (py "train.jsonl")) (py "out") (World ∅ [] tt []))) in
  let sizes ev :=
    match ev with
    | CallSFTTrainer c =>
        [(length (sft_train_dataset c),
          option_map (@length example) (sft_eval_dataset c),
          sft_callbacks c)]
    | _ => []
    end in
  List.filter is_split (calls_of 20%nat) = []
  /\ flat_map sizes (calls_of 20%nat) = [(20%nat, None, None)]
  /\ List.filter is_split (calls_of 21%nat)
     = [CallTrainTestSplit (repeat (Example (py "x")) 21) 0.1%float 42%Z]
  /\ flat_map sizes (calls_of 21%nat)
     = [(18%nat, Some 3%nat, Some [EarlyStoppingCallback 3%Z])].
Proof. vm_compute. repeat split; reflexivity. Qed.

(** C6: when the path given as [--data] does not exist, [main] prints the
    error message and leaves with [sys.exit(1)]; the file system is the one
    it started from, so no output directory was made, and no library was
    called. *)
Theorem C6_missing_data_file_exits_1 {L : Libraries}
    (args : arguments) (w : world lib_heap) :
  fs w !! args_data args = None ->
  main args w
  = (Exits 1%Z,
     World (fs w)
           (stdout w ++ [py "错误: 数据文件不存在: " ++ args_data args])
           (heap w) (calls w))
  /\ exit_status (fst (main args w)) = 1%Z
  /\ fs (snd (main args w)) = fs w.
Proof.
  intros Hnone.
  assert (Hrun : main args w
                 = (Exits 1%Z,
                    World (fs w)
                      (stdout w ++ [py "错误: 数据文件不存在: " ++ args_data args])
                      (heap w) (calls w))).
  { unfold main, bind at 1, os_path_exists. rewrite Hnone.
    rewrite bool_decide_eq_false_2 by (by intros [? ?]). reflexivity. }
  rewrite Hrun. done.
Qed.

Lemma C6_missing_data_file_witness :
  let w := stub_world (py "train.jsonl") (jtext "{'prompt':'a','completion':'b'}") in
  let args := stub_args (py "missing.jsonl") in
  @main stub_libraries args w
  = (Exits 1%Z,
     World (fs w) (stdout w ++ [py "错误: 数据文件不存在: " ++ py "missing.jsonl"])
           (heap w) (calls w))
  /\ exit_status (fst (@main stub_libraries args w)) = 1%Z
  /\ fs (snd (@main stub_libraries args w)) = fs w.
Proof.
  intros w args.
  apply (@C6_missing_data_file_exits_1 stub_libraries args w).
  vm_compute. reflexivity.
Defined.

(** C7, as amended: when no exception escapes [main] (every library call
    succeeds and the loader raises nothing), the process ends with status 1
    exactly when the data file is missing or the loader gets no record out
    of it, and with status 0 otherwise; [sys.exit] is reached on these two
    paths only, with code 1. *)
Theorem C7_exit_status_without_exception {L : Libraries}
    (args : arguments) (w : world lib_heap) :
  queries_keep_files ->
  (forall e, fst (main args w) <> Raises e) ->
  (exit_status (fst (main args w)) = 1%Z <-> no_training_data args w)
  /\ (exit_status (fst (main args w)) = 0%Z <-> ~ no_training_data args w)
  /\ (forall c, fst (main args w) = Exits c ->
        c = 1%Z /\ no_training_data args w).
Proof.
  intros Hq Hno. pose proof (main_spec args w Hq) as Hm. unfold spec in Hm.
  destruct (main args w) as [[[]|c|e] w'] eqn:Hrun; cbn [fst snd] in *.
  - destruct Hm as (content & ds & _ & _ & _ & _ & _ & _ & Hf & Hl & Hne & _).
    assert (Hdata : ~ no_training_data args w).
    { intros [Hn|(content' & Hf' & Hl')]; [by rewrite Hf in Hn|].
      rewrite Hf in Hf'. injection Hf' as <-.
      rewrite Hl in Hl'. by injection Hl' as ->. }
    cbn [exit_status]. split; [split; [done|by intros ?]|].
    split; [done|]. intros c [=].
  - destruct Hm as [-> Hdata]. cbn [exit_status].
    split; [done|]. split; [split; [done|by intros ?]|].
    by intros c [= <-].
  - by destruct (Hno e).
Qed.

Lemma C7_exit_status_witness :
  let w := stub_world (py "train.jsonl") (jtext "{'prompt':'a','completion':'b'}") in
  let args := stub_args (py "train.jsonl") in
  (exit_status (fst (@main stub_libraries args w)) = 1%Z
   <-> @no_training_data stub_libraries args w)
  /\ (exit_status (fst (@main stub_libraries args w)) = 0%Z
      <-> ~ @no_training_data stub_libraries args w)
  /\ (forall c, fst (@main stub_libraries args w) = Exits c ->
        c = 1%Z /\ @no_training_data stub_libraries args w).
Proof.
  intros w args.
  apply (@C7_exit_status_without_exception stub_libraries args w
           stub_queries_keep_files).
  intros e. vm_compute. discriminate.
Defined.

(** The three ways out, run on the stand-ins: a good file ends with status
    0, a missing file and a file without a valid record with status 1. *)
Lemma exit_status_examples :
  let status path content :=
    exit_status
      (fst (@main stub_libraries (stub_args path)
              (stub_world (py "train.jsonl") content))) in
  status (py "train.jsonl") (jtext "{'prompt':'a','completion':'b'}") = 0%Z
  /\ status (py "missing.jsonl") (jtext "{'prompt':'a','completion':'b'}") = 1%Z
  /\ status (py "train.jsonl") (jtext "{'prompt':'','completion':'b'}|") = 1%Z.
Proof. vm_compute. repeat split; reflexivity. Qed.

(** C7, as stated, fails: the data file is there, its one line is valid
    JSON, every library call made succeeds, and yet the process ends with
    status 1, on the [AttributeError] of [prompt.replace] for a number. *)
Lemma C7_attribute_error_exits_1 :
  let content := jtext "{'prompt': 1, 'completion': 2}" in
  let w := stub_world (py "train.jsonl") content in
  let args := stub_args (py "train.jsonl") in
  fs w !! args_data args = Some (File content)
  /\ @json_loads stub_libraries (str_strip content)
     = Some (JDict [(py "prompt", JInt 1); (py "completion", JInt 2)])
  /\ @load_lines stub_libraries (readlines content) [] = Raises AttributeError
  /\ fst (@main stub_libraries args w) = Raises AttributeError
  /\ calls (snd (@main stub_libraries args w))
     = [CallNow; CallCudaIsAvailable; CallMpsIsAvailable]
  /\ exit_status (fst (@main stub_libraries args w)) = 1%Z
  /\ ~ @no_training_data stub_libraries args w.
Proof.
  intros content w args.
  assert (Hf : fs w !! args_data args = Some (File content))
    by (vm_compute; reflexivity).
  assert (Hl : @load_lines stub_libraries (readlines content) []
               = Raises AttributeError) by (vm_compute; reflexivity).
  split; [done|]. split; [vm_compute; reflexivity|]. split; [done|].
  split; [vm_compute; reflexivity|]. split; [vm_compute; reflexivity|].
  split; [vm_compute; reflexivity|].
  intros [Hn|(content' & Hf' & Hl')];
    change (@lib_heap stub_libraries) with unit in *.
  - by rewrite Hf in Hn.
  - rewrite Hf in Hf'. injection Hf' as <-.
    rewrite Hl in Hl'. discriminate Hl'.
Qed.

(** C10: when [main] returns, the [train_samples] entry of the metadata it
    wrote to [config.json] is the number of records the loader got from the
    data file.  That is the size of the dataset the split was made on, and,
    as the split loses no record, the sum of the sizes of the training and
    evaluation sets of the trainer. *)
Theorem C10_train_samples_counts_loaded_records {L : Libraries}
    (args : arguments) (w w' : world lib_heap) :
  queries_keep_files ->
  split_partitions ->
  main args w = (Returns tt, w') ->
  exists content ds timestamp device evs,
    fs w !! args_data args = Some (File content)
    /\ load_lines (readlines content) [] = Returns ds
    /\ fs w' !! config_path args timestamp
       = Some (File (json_dump (run_config args timestamp ds device)))
    /\ (exists d, run_config args timestamp ds device = JDict d
                  /\ dict_get d (py "train_samples")
                     = Some (JInt (Z.of_nat (length ds))))
    /\ calls w' = calls w ++ evs
    /\ ((20 < length ds)%nat ->
        In (CallTrainTestSplit ds 0.1%float 42%Z) evs)
    /\ (exists c, In (CallSFTTrainer c) evs)
    /\ (forall c, In (CallSFTTrainer c) evs ->
          (length (sft_train_dataset c)
           + length (default [] (sft_eval_dataset c)) = length ds)%nat).
Proof.
  intros Hq Hpart Hrun.
  pose proof (spec_run _ _ _ _ _ (main_spec args w Hq) Hrun) as Hm.
  destruct Hm as (content & ds & timestamp & device & before & evs & after & t
                  & Hf & Hl & _ & Hcfg & Hc & Hb & Ha & Hsplit & Hsft & Hret).
  exists content, ds, timestamp, device, (before ++ evs ++ after).
  split; [done|]. split; [done|]. split; [done|].
  split. { eexists. split; reflexivity. }
  split; [done|]. split; [|split].
  - intros Hgt. apply in_app_iff. right. apply in_app_iff. left.
    apply Nat.ltb_lt in Hgt. rewrite Hgt in Hsplit.
    eapply (proj1 (filter_In is_split _ evs)). rewrite Hsplit. by left.
  - destruct (Hret t eq_refl) as [c Hin]. exists c.
    apply in_app_iff. right. apply in_app_iff. by left.
  - intros c Hin.
    assert (Hin' : In (CallSFTTrainer c) evs).
    { apply in_app_iff in Hin as [Hin|Hin].
      - rewrite Forall_forall in Hb. apply list_elem_of_In, Hb in Hin. done.
      - apply in_app_iff in Hin as [Hin|Hin]; [done|].
        rewrite Forall_forall in Ha. apply list_elem_of_In, Ha in Hin. done. }
    destruct (Hsft c Hin') as (Hsets & _).
    destruct Hsets as [(_ & -> & ->)|(_ & w0 & w1 & tr & te & Hs & -> & ->)].
    + simpl. lia.
    + simpl. by eapply Hpart.
Qed.

Lemma C10_train_samples_witness :
  let content :=
    flat_map (fun _ => jtext "{'prompt':'a','completion':'b'}|") (seq 0 21) in
  let w := stub_world (py "train.jsonl") content in
  let args := stub_args (py "train.jsonl") in
  exists content' ds timestamp device evs,
    fs w !! args_data args = Some (File content')
    /\ @load_lines stub_libraries (readlines content') [] = Returns ds
    /\ fs (snd (@main stub_libraries args w)) !! config_path args timestamp
       = Some (File (@json_dump stub_libraries
                       (run_config args timestamp ds device)))
    /\ (exists d, run_config args timestamp ds device = JDict d
                  /\ dict_get d (py "train_samples")
                     = Some (JInt (Z.of_nat (length ds))))
    /\ calls (snd (@main stub_libraries args w)) = calls w ++ evs
    /\ ((20 < length ds)%nat ->
        In (CallTrainTestSplit ds 0.1%float 42%Z) evs)
    /\ (exists c, In (CallSFTTrainer c) evs)
    /\ (forall c, In (CallSFTTrainer c) evs ->
          (length (sft_train_dataset c)
           + length (default [] (sft_eval_dataset c)) = length ds)%nat).
Proof.
  intros content w args.
  apply (@C10_train_samples_counts_loaded_records stub_libraries args w
           (snd (@main stub_libraries args w))
           stub_queries_keep_files stub_split_partitions).
  vm_compute. reflexivity.
Defined.

(** The same run, read off: twenty-one records are loaded, the trainer gets
    eighteen to train on and three to evaluate on, and the metadata counts
    twenty-one. *)
Lemma train_samples_example :
  let content :=
    flat_map (fun _ => jtext "{'prompt':'a','completion':'b'}|") (seq 0 21) in
  let w := stub_world (py "train.jsonl") content in
  let args := stub_args (py "train.jsonl") in
  let sizes ev :=
    match ev with
    | CallSFTTrainer c =>
        [(length (sft_train_dataset c),
          option_map (@length example) (sft_eval_dataset c))]
    | _ => []
    end in
  flat_map sizes (calls (snd (@main stub_libraries args w)))
  = [(18%nat, Some 3%nat)]
  /\ match fs (snd (@main stub_libraries args w))
           !! config_path args (py "20240101_000000") with
     | Some (File written) =>
         str_contains (jtext "  'train_samples': 21,|") written = true
     | _ => False
     end
  /\ exists ds,
       fst (@load_dataset stub_libraries (py "train.jsonl") w) = Returns ds
       /\ length ds = 21%nat
       /\ dict_get_default
            (match run_config args (py "20240101_000000") ds (py "cpu") with
             | JDict d => d
             | _ => []
             end) (py "train_samples") JNull = JInt 21.
Proof.
  vm_compute. split; [reflexivity|]. split; [reflexivity|].
  eexists. repeat split; reflexivity.
Qed.

(** ** The reference decoder never runs out of fuel *)

Module DecoderFacts.
Import Decoder.

Lemma skip_ws_length (s : pystr) : (length (skip_ws s) <= length s)%nat.
Proof.
  induction s as [|c s IH]; simpl; [lia|].
  destruct (is_json_ws c); simpl; lia.
Qed.

Lemma take_digits_length (s ds r : pystr) :
  take_digits s = (ds, r) -> (length s = length ds + length r)%nat.
Proof.
  revert ds r. induction s as [|c s IH]; simpl; intros ds r.
  - intros [= <- <-]. reflexivity.
  - destruct (is_digit c).
    + destruct (take_digits s) as [ds' r'] eqn:E. intros [= <- <-].
      simpl. rewrite (IH ds' r' eq_refl). lia.
    + intros [= <- <-]. reflexivity.
Qed.

Lemma scan_string_shorter (s acc str r : pystr) :
  scan_string acc s = Some (str, r) -> (length r < length s)%nat.
Proof.
  remember (length s) as n eqn:Hn. revert s acc Hn.
  induction n as [n IH] using lt_wf_ind. intros s acc Hn H. subst n.
  destruct s as [|c r0]; [discriminate|]. simpl in H.
  repeat match type of H with
         | context [if ?b then _ else _] => destruct b
         | context [match ?x with _ => _ end] => destruct x eqn:?
         end;
    try discriminate;
    try (injection H as _ <-; simpl; lia);
    (eapply IH in H; [| |reflexivity]; simpl in *; lia).
Qed.

Lemma scan_sign_length (s s1 : pystr) (neg : bool) :
  scan_sign s = (neg, s1) -> (length s1 <= length s)%nat.
Proof.
  destruct s as [|c r]; simpl; [by intros [= _ <-]|].
  destruct (c =? 45); intros [= _ <-]; simpl; lia.
Qed.

Lemma scan_int_part_shorter (s ids s2 : pystr) :
  scan_int_part s = Some (ids, s2) -> (length s2 < length s)%nat.
Proof.
  destruct s as [|c r]; [discriminate|]. unfold scan_int_part.
  destruct (c =? 48); [intros [= _ <-]; simpl; lia|].
  destruct (take_digits (c :: r)) as [[|d ds] r'] eqn:E; [discriminate|].
  intros [= _ <-]. apply take_digits_length in E. simpl in *. lia.
Qed.

Lemma scan_fraction_length (s fds s3 : pystr) :
  scan_fraction s = (fds, s3) -> (length s3 <= length s)%nat.
Proof.
  destruct s as [|c r]; simpl; [by intros [= _ <-]|].
  destruct (c =? 46); [|intros [= _ <-]; simpl; lia].
  destruct (take_digits r) as [[|d ds] r'] eqn:E; intros [= _ <-]; [simpl; lia|].
  apply take_digits_length in E. simpl in *. lia.
Qed.

Lemma scan_exponent_shorter (s s4 : pystr) (e : Z) :
  scan_exponent s = Some (e, s4) -> (length s4 < length s)%nat.
Proof.
  destruct s as [|c r]; [discriminate|]. unfold scan_exponent.
  destruct ((c =? 101) || (c =? 69)); [|discriminate].
  destruct (scan_exponent_sign r) as [eneg r1] eqn:E1.
  assert (length r1 <= length r)%nat as Hsign.
  { destruct r as [|c' r']; simpl in E1; [by injection E1 as _ <-|].
    destruct (c' =? 45); [injection E1 as _ <-; simpl; lia|].
    destruct (c' =? 43); injection E1 as _ <-; simpl; lia. }
  destruct (take_digits r1) as [[|d ds] r2] eqn:E2; [discriminate|].
  intros [= _ <-]. apply take_digits_length in E2. simpl in *. lia.
Qed.

Lemma scan_number_shorter (s r : pystr) (v : json) :
  scan_number s = Some (v, r) -> (length r < length s)%nat.
Proof.
  unfold scan_number.
  destruct (scan_sign s) as [neg s1] eqn:E1. apply scan_sign_length in E1.
  destruct (scan_int_part s1) as [[ids s2]|] eqn:E2; [|discriminate].
  apply scan_int_part_shorter in E2.
  destruct (scan_fraction s2) as [fds s3] eqn:E3. apply scan_fraction_length in E3.
  destruct (scan_exponent s3) as [[e s4]|] eqn:E4.
  - apply scan_exponent_shorter in E4.
    destruct fds; intros [= _ <-]; lia.
  - destruct fds; intros [= _ <-]; lia.
Qed.

Lemma strip_prefix_shorter (c : N) (p s r : pystr) :
  strip_prefix (c :: p) s = Some r -> (length r < length s)%nat.
Proof.
  intros H. apply strip_prefix_spec in H. subst s. simpl.
  rewrite length_app. lia.
Qed.

Lemma scan_constant_shorter (s r : pystr) (v : json) :
  scan_constant s = Some (v, r) -> (length r < length s)%nat.
Proof.
  unfold scan_constant.
  repeat match goal with
         | |- context [strip_prefix (py ?lit) s] =>
             let p := eval vm_compute in (py lit) in
             change (py lit) with p;
             let E := fresh "E" in
             destruct (strip_prefix p s) eqn:E;
             [apply strip_prefix_shorter in E; by intros [= _ <-]|clear E]
         | |- context [scan_number s] =>
             let E := fresh "E" in
             destruct (scan_number s) as [[? ?]|] eqn:E;
             [apply scan_number_shorter in E; by intros [= _ <-]|clear E]
         end.
  discriminate.
Qed.

Lemma scan_fuel (fuel : nat) :
  (forall s, (2 * length s + 1 <= fuel)%nat -> consumes s (scan_value fuel s))
  /\ (forall acc s, (2 * length s + 2 <= fuel)%nat ->
        consumes s (scan_elements fuel acc s))
  /\ (forall acc s, (2 * length s + 2 <= fuel)%nat ->
        consumes s (scan_members fuel acc s)).
Proof.
  induction fuel as [|fuel (IHv & IHe & IHm)].
  { repeat split; intros; lia. }
  split; [|split].
  - intros [|c r] Hf; [done|]. cbn [scan_value].
    destruct (c =? 34).
    { destruct (scan_string [] r) as [[str r']|] eqn:E; [|done].
      apply scan_string_shorter in E. simpl. lia. }
    destruct (c =? 123).
    { pose proof (skip_ws_length r) as Hws.
      destruct (skip_ws r) as [|c' r'] eqn:E; [done|].
      destruct (c' =? 125); [simpl in *; lia|].
      assert (Hm : consumes (c' :: r') (scan_members fuel [] (c' :: r')))
        by (apply IHm; simpl in *; lia).
      destruct (scan_members fuel [] (c' :: r')); simpl in *; [lia|done|done]. }
    destruct (c =? 91).
    { pose proof (skip_ws_length r) as Hws.
      destruct (skip_ws r) as [|c' r'] eqn:E; [done|].
      destruct (c' =? 93); [simpl in *; lia|].
      assert (He : consumes (c' :: r') (scan_elements fuel [] (c' :: r')))
        by (apply IHe; simpl in *; lia).
      destruct (scan_elements fuel [] (c' :: r')); simpl in *; [lia|done|done]. }
    destruct (scan_constant (c :: r)) as [[v r']|] eqn:E; [|done].
    by apply scan_constant_shorter in E.
  - intros acc s Hf. cbn [scan_elements].
    assert (Hv : consumes s (scan_value fuel s)) by (apply IHv; lia).
    destruct (scan_value fuel s) as [v r| |]; [|done|done]. simpl in Hv.
    pose proof (skip_ws_length r) as Hws.
    destruct (skip_ws r) as [|c r'] eqn:E; [done|].
    destruct (c =? 44).
    { pose proof (skip_ws_length r') as Hws'.
      assert (He : consumes (skip_ws r')
                     (scan_elements fuel (v :: acc) (skip_ws r')))
        by (apply IHe; simpl in *; lia).
      destruct (scan_elements fuel (v :: acc) (skip_ws r')); simpl in *;
        [lia|done|done]. }
    destruct (c =? 93); [simpl in *; lia|done].
  - intros acc [|q r] Hf; [done|]. cbn [scan_members].
    destruct (q =? 34); [|done].
    destruct (scan_string [] r) as [[key r1]|] eqn:E1; [|done].
    apply scan_string_shorter in E1.
    pose proof (skip_ws_length r1) as Hws1.
    destruct (skip_ws r1) as [|colon r2] eqn:E2; [done|].
    destruct (colon =? 58); [|done].
    pose proof (skip_ws_length r2) as Hws2.
    assert (Hv : consumes (skip_ws r2) (scan_value fuel (skip_ws r2)))
      by (apply IHv; simpl in *; lia).
    destruct (scan_value fuel (skip_ws r2)) as [v r3| |]; [|done|done].
    simpl in Hv.
    pose proof (skip_ws_length r3) as Hws3.
    destruct (skip_ws r3) as [|c r4] eqn:E3; [done|].
    destruct (c =? 44).
    { pose proof (skip_ws_length r4) as Hws4.
      assert (Hm : consumes (skip_ws r4)
                     (scan_members fuel (dict_set acc key v) (skip_ws r4)))
        by (apply IHm; simpl in *; lia).
      destruct (scan_members fuel (dict_set acc key v) (skip_ws r4));
        simpl in *; [lia|done|done]. }
    destruct (c =? 125); [simpl in *; lia|done].
Qed.

(** [loads] returns [None] only for a text that the scan finds malformed or
    that goes on after its value. *)
Lemma scan_value_fuel (s : pystr) :
  scan_value (2 * length s + 2) (skip_ws s) <> OutOfFuel.
Proof.
  pose proof (skip_ws_length s) as Hws.
  destruct (scan_fuel (2 * length s + 2)) as (Hv & _ & _).
  assert (H : consumes (skip_ws s) (scan_value (2 * length s + 2) (skip_ws s)))
    by (apply Hv; lia).
  intros E. by rewrite E in H.
Qed.

(** Values and verdicts of [json.loads], checked against the interpreter. *)
Lemma loads_examples :
  loads (jtext " {'a': [1, -2.5e3, true, null], 'b': {}, 'a': 'x\u00e9\ud83d\ude00\n'} ")
  = Some (JDict [(py "a", JStr [120; 233; 128512; 10]); (py "b", JDict [])])
  /\ loads (jtext "[0.1, 1e400, -0, -0.0, 5e-324, -Infinity]")
     = Some (JList [JFloat 0.1; JFloat infinity; JInt 0; JFloat (-0);
                    JFloat 0x1p-1074; JFloat neg_infinity])
  /\ map loads [jtext "01"; jtext "1."; jtext "[1,]"; jtext "tru";
                jtext "'abc"; jtext "{'a' 1}"; jtext "{'a':1,}"; jtext "+1";
                jtext ".5"; jtext "1 2"; jtext ""; py "{'a': 1}"]
     = repeat None 12.
Proof. vm_compute. repeat split; reflexivity. Qed.

End DecoderFacts.

(** * Further properties of the loader *)

Lemma lstrip_spaces (ws x : pystr) :
  forallb is_space ws = true -> lstrip (ws ++ x) = lstrip x.
Proof.
  induction ws as [|c ws IH]; simpl; [done|].
  destruct (is_space c); [auto|discriminate].
Qed.

Lemma rstrip_spaces (x ws : pystr) :
  forallb is_space ws = true -> rstrip (x ++ ws) = rstrip x.
Proof.
  intros H. unfold rstrip. rewrite rev_app_distr, lstrip_spaces; [done|].
  rewrite forallb_forall in *. intros c Hc. apply H. by apply in_rev.
Qed.

Lemma lstrip_app_spaces (x ws : pystr) :
  forallb is_space ws = true -> rstrip (lstrip (x ++ ws)) = rstrip (lstrip x).
Proof.
  intros H. induction x as [|c x IH]; simpl.
  - rewrite <- (app_nil_r ws), lstrip_spaces by done. reflexivity.
  - destruct (is_space c); [done|].
    change (c :: x ++ ws) with ((c :: x) ++ ws). by apply rstrip_spaces.
Qed.

Lemma str_strip_spaces (ws1 x ws2 : pystr) :
  forallb is_space ws1 = true -> forallb is_space ws2 = true ->
  str_strip (ws1 ++ x ++ ws2) = str_strip x.
Proof.
  intros H1 H2. unfold str_strip.
  rewrite lstrip_spaces by done. by apply lstrip_app_spaces.
Qed.

Lemma load_line_strip {L : Libraries} (l1 l2 : pystr) (data : list example) :
  str_strip l1 = str_strip l2 -> load_line l1 data = load_line l2 data.
Proof. unfold load_line. by intros ->. Qed.

Lemma load_lines_skip {L : Libraries} (pre post : list pystr) (line : pystr) :
  (forall acc, load_line line acc = Returns acc) ->
  forall data,
    load_lines (pre ++ line :: post) data = load_lines (pre ++ post) data.
Proof.
  intros Hskip data. rewrite !load_lines_app.
  destruct (load_lines pre data) as [acc| |]; try reflexivity.
  simpl. by rewrite Hskip.
Qed.

(** X1: a line that is empty once stripped (a blank line, a line of spaces
    or tabs) is passed over before [json.loads] sees it: the loop body
    returns the list unchanged, for every decoder, and the file loads as it
    does without that line. *)
Theorem X1_blank_line_skipped {L : Libraries}
    (pre post : list pystr) (line : pystr) (data : list example) :
  str_strip line = [] ->
  load_line line data = Returns data
  /\ load_lines (pre ++ line :: post) data = load_lines (pre ++ post) data.
Proof.
  intros Hb.
  assert (Hskip : forall acc, load_line line acc = Returns acc).
  { intros acc. unfold load_line. by rewrite Hb. }
  split; [apply Hskip|]. by apply load_lines_skip.
Qed.

Lemma X1_blank_line_witness :
  @load_lines stub_libraries
    [jtext "{'prompt':'a','completion':'b'}|"; jtext "  	 |";
     jtext "{'prompt':'c','completion':'d'}|"] []
  = @load_lines stub_libraries
      [jtext "{'prompt':'a','completion':'b'}|";
       jtext "{'prompt':'c','completion':'d'}|"] [].
Proof.
  refine (proj2 (@X1_blank_line_skipped stub_libraries
                   [jtext "{'prompt':'a','completion':'b'}|"]
                   [jtext "{'prompt':'c','completion':'d'}|"]
                   (jtext "  	 |") [] _)).
  vm_compute. reflexivity.
Defined.

(** X2: a non-blank line that is valid JSON but not an object, or an object
    whose [prompt] and [completion] are both truthy without both being
    strings, ends the loader with [AttributeError] (from [item.get] or from
    [.replace]); the lines after it are not read. *)
Theorem X2_unexpected_shape_raises {L : Libraries}
    (line : pystr) (v : json) (post : list pystr) (data : list example) :
  str_strip line <> [] ->
  json_loads (str_strip line) = Some v ->
  unexpected_shape v ->
  load_line line data = Raises AttributeError
  /\ load_lines (line :: post) data = Raises AttributeError.
Proof.
  intros Hne Hj Hv.
  assert (H : load_line line data = Raises AttributeError).
  { unfold load_line. destruct (str_strip line) as [|c0 l0]; [done|].
    rewrite Hj. destruct v as [|b|n|f|s0|l|d]; try reflexivity.
    destruct Hv as [Ht Hs]. cbv zeta in Ht, Hs. rewrite Ht.
    destruct (dict_get_default d (py "prompt") (JStr []));
      destruct (dict_get_default d (py "completion") (JStr []));
      try reflexivity; discriminate. }
  split; [done|]. simpl. by rewrite H.
Qed.

Lemma X2_unexpected_shape_witness :
  @load_line stub_libraries (jtext "[1, 2]|") [] = Raises AttributeError
  /\ @load_lines stub_libraries
       [jtext "[1, 2]|"; jtext "{'prompt':'a','completion':'b'}|"] []
     = Raises AttributeError.
Proof.
  apply (@X2_unexpected_shape_raises stub_libraries (jtext "[1, 2]|")
           (JList [JInt 1; JInt 2])).
  - vm_compute. discriminate.
  - vm_compute. reflexivity.
  - exact I.
Defined.

(** X3: the test [if prompt and completion] is Python truthiness, and it
    short-circuits: when either field is falsy (absent, "", null, false, 0,
    [] or {}), the line adds nothing and raises nothing, whatever the type
    of the other field. *)
Theorem X3_falsy_field_skips_quietly {L : Libraries}
    (pre post : list pystr) (line : pystr) (d : list (pystr * json))
    (data : list example) :
  json_loads (str_strip line) = Some (JDict d) ->
  truthy (dict_get_default d (py "prompt") (JStr [])) = false
  \/ truthy (dict_get_default d (py "completion") (JStr [])) = false ->
  load_line line data = Returns data
  /\ load_lines (pre ++ line :: post) data = load_lines (pre ++ post) data.
Proof.
  intros Hj Hf.
  assert (Hskip : forall acc, load_line line acc = Returns acc).
  { intros acc. by apply (load_line_falsy line d acc Hj). }
  split; [apply Hskip|]. by apply load_lines_skip.
Qed.

Lemma X3_falsy_field_witness :
  @load_line stub_libraries (jtext "{'prompt': null, 'completion': 7}") []
  = Returns []
  /\ @load_lines stub_libraries
       ([] ++ jtext "{'prompt': null, 'completion': 7}" :: []) []
     = @load_lines stub_libraries ([] ++ []) [].
Proof.
  apply (@X3_falsy_field_skips_quietly stub_libraries [] []
           (jtext "{'prompt': null, 'completion': 7}")
           [(py "prompt", JNull); (py "completion", JInt 7)]).
  - vm_compute. reflexivity.
  - left. vm_compute. reflexivity.
Defined.

(** X4: white space around a line does not count: with any run of white
    space before it and after it, a line does to the list what it does
    without them. *)
Theorem X4_surrounding_white_space_ignored {L : Libraries}
    (ws1 line ws2 : pystr) (data : list example) :
  forallb is_space ws1 = true -> forallb is_space ws2 = true ->
  load_line (ws1 ++ line ++ ws2) data = load_line line data.
Proof.
  intros H1 H2. apply load_line_strip. by apply str_strip_spaces.
Qed.

Lemma X4_surrounding_white_space_witness :
  @load_line stub_libraries
    (jtext " 	" ++ jtext "{'prompt':'a','completion':'b'}" ++ [32; 13; 10]) []
  = @load_line stub_libraries (jtext "{'prompt':'a','completion':'b'}") [].
Proof.
  apply (@X4_surrounding_white_space_ignored stub_libraries);
    vm_compute; reflexivity.
Defined.





(** Text in which [old] does not occur is left as it is. *)
Lemma clean_prompt_absent (p : pystr) :
  str_contains (py "用户: ") p = false -> str_contains (py "User: ") p = false ->
  clean_prompt p = p.
Proof.
  unfold clean_prompt. label_literals. intros H1 H2.
  by rewrite (str_replace_absent _ _ [] p H1), (str_replace_absent _ _ [] p H2).
Qed.

Lemma clean_completion_absent (c : pystr) :
  str_contains (py "助手: ") c = false ->
  str_contains (py "Assistant: ") c = false ->
  clean_completion c = c.
Proof.
  unfold clean_completion. label_literals. intros H1 H2.
  by rewrite (str_replace_absent _ _ [] c H1), (str_replace_absent _ _ [] c H2).
Qed.

(** X6: fields that hold none of their role's labels go into the record
    as they are: nothing is trimmed, escaped or otherwise changed between
    the JSON string and the template. *)
Theorem X6_label_free_fields_verbatim {L : Libraries}
    (line : pystr) (d : list (pystr * json)) (p c : pystr)
    (data : list example) :
  str_strip line <> [] ->
  json_loads (str_strip line) = Some (JDict d) ->
  dict_get d (py "prompt") = Some (JStr p) -> p <> [] ->
  dict_get d (py "completion") = Some (JStr c) -> c <> [] ->
  str_contains (py "用户: ") p = false -> str_contains (py "User: ") p = false ->
  str_contains (py "助手: ") c = false ->
  str_contains (py "Assistant: ") c = false ->
  load_line line data = Returns (data ++ [Example (chat_text p c)]).
Proof.
  intros Hl Hj Hp Hpne Hc Hcne Hp1 Hp2 Hc1 Hc2.
  rewrite (load_line_well_formed line d p c data) by done.
  by rewrite clean_prompt_absent, clean_completion_absent.
Qed.

Lemma X6_label_free_fields_witness :
  @load_line stub_libraries
    (jtext "{'prompt':'  2 + 2 = ?\n','completion':' <b>4</b> '}") []
  = Returns ([] ++ [Example (chat_text (py "  2 + 2 = ?" ++ [10])
                                       (py " <b>4</b> "))]).
Proof.
  apply (@X6_label_free_fields_verbatim stub_libraries _
           [(py "prompt", JStr (py "  2 + 2 = ?" ++ [10]));
            (py "completion", JStr (py " <b>4</b> "))]);
    vm_compute; (reflexivity || discriminate).
Defined.

Lemma clean_prompt_labels_only (labels : list pystr) :
  Forall (fun l => l = py "用户: " \/ l = py "User: ") labels ->
  clean_prompt (concat labels) = [].
Proof.
  induction 1 as [|l labels Hl _ IH]; [reflexivity|].
  change (concat (l :: labels)) with (l ++ concat labels).
  destruct Hl as [-> | ->].
  - by rewrite clean_prompt_user_zh_prefix.
  - etrans; [apply (clean_prompt_user_en [] (concat labels))|].
    by rewrite IH.
Qed.

(** X7: the emptiness test comes before the labels are removed: a prompt
    made of user labels only is accepted, and its record has an empty
    prompt. *)
Theorem X7_label_only_prompt_accepted {L : Libraries}
    (line : pystr) (d : list (pystr * json)) (labels : list pystr)
    (c : pystr) (data : list example) :
  str_strip line <> [] ->
  json_loads (str_strip line) = Some (JDict d) ->
  Forall (fun l => l = py "用户: " \/ l = py "User: ") labels ->
  labels <> [] ->
  dict_get d (py "prompt") = Some (JStr (concat labels)) ->
  dict_get d (py "completion") = Some (JStr c) -> c <> [] ->
  load_line line data
  = Returns (data ++ [Example (chat_text [] (clean_completion c))]).
Proof.
  intros Hl Hj Hlab Hne Hp Hc Hcne.
  rewrite (load_line_well_formed line d (concat labels) c data); try done.
  - by rewrite clean_prompt_labels_only.
  - destruct Hlab as [|l labels [-> | ->] _]; [done| |]; discriminate.
Qed.

Lemma X7_label_only_prompt_witness :
  @load_line stub_libraries
    (jtext "{'prompt':'User: 用户: ','completion':'ok'}") []
  = Returns ([] ++ [Example (chat_text [] (clean_completion (py "ok")))]).
Proof.
  apply (@X7_label_only_prompt_accepted stub_libraries _
           [(py "prompt", JStr (py "User: 用户: ")); (py "completion", JStr (py "ok"))]
           [py "User: "; py "用户: "]).
  - vm_compute. discriminate.
  - vm_compute. reflexivity.
  - apply Forall_cons_2; [by right|]. apply Forall_cons_2; [by left|].
    apply Forall_nil_2.
  - discriminate.
  - vm_compute. reflexivity.
  - vm_compute. reflexivity.
  - discriminate.
Defined.

Lemma str_contains_prefix (o : N) (word' x : pystr) :
  str_contains (o :: word') ((o :: word') ++ x) = true.
Proof.
  change ((o :: word') ++ x) with (o :: (word' ++ x)). cbn [str_contains].
  change (o :: (word' ++ x)) with ((o :: word') ++ x).
  by rewrite strip_prefix_app.
Qed.

(** Where a word first stands in a text that has no earlier occurrence of
    it is settled by the text. *)
Lemma first_occurrence_unique (o : N) (word' a a' b b' : pystr) :
  ~ In o word' ->
  str_contains (o :: word') a = false ->
  str_contains (o :: word') a' = false ->
  a ++ (o :: word') ++ b = a' ++ (o :: word') ++ b' ->
  a = a'.
Proof.
  intros Ho. revert a'.
  assert (Hfar : forall t r x y,
             (o :: word') ++ x = (t :: r) ++ (o :: word') ++ y ->
             str_contains (o :: word') (t :: r) = true).
  { intros t r x y E.
    assert (Hm : strip_prefix (o :: word') ((t :: r) ++ o :: (word' ++ y))
                 = Some x) by (apply strip_prefix_spec; symmetry; exact E).
    apply match_ends_before in Hm as [r' ->]; [|done|done].
    apply str_contains_prefix. }
  induction a as [|c a IH]; intros [|c' a'] Ha Ha' E.
  - reflexivity.
  - apply Hfar in E. congruence.
  - symmetry in E. apply Hfar in E. congruence.
  - injection E as -> E. f_equal. apply IH; [| |done].
    + cbn [str_contains] in Ha.
      by destruct (strip_prefix (o :: word') (c' :: a)).
    + cbn [str_contains] in Ha'.
      by destruct (strip_prefix (o :: word') (c' :: a')).
Qed.

(** X8: the template can be read back: two pairs of prompt and completion
    whose prompts do not hold the end-of-turn marker give the same text only
    when they are the same pair.  (Nothing escapes the marker, so without
    that condition they can collide, see [chat_text_collision].) *)
Theorem X8_text_determines_the_pair (p c p' c' : pystr) :
  str_contains im_end p = false ->
  str_contains im_end p' = false ->
  chat_text p c = chat_text p' c' ->
  p = p' /\ c = c'.
Proof.
  unfold chat_text, im_end. intros Hp Hp' E.
  apply app_inv_head in E. apply app_inv_head in E.
  set (m := py "<|im_end|>") in *.
  assert (Hm : m = 60 :: [124; 105; 109; 95; 101; 110; 100; 124; 62])
    by (vm_compute; reflexivity).
  clearbody m. subst m.
  assert (p = p') as <-.
  { eapply (first_occurrence_unique _ _ p p'); [|done|done|exact E]. not_among. }
  split; [done|].
  apply app_inv_head in E. apply app_inv_head in E.
  repeat apply app_inv_head in E.
  by apply app_inv_tail in E.
Qed.

Lemma X8_text_determines_the_pair_witness :
  py "hi" = py "hi" /\ py "hello" = py "hello".
Proof.
  apply (X8_text_determines_the_pair (py "hi") (py "hello") (py "hi") (py "hello"));
    vm_compute; reflexivity.
Defined.

Lemma chat_text_collision :
  let turn := py "<|im_end|>" ++ [10] ++ py "<|im_start|>assistant" ++ [10] in
  chat_text (py "a" ++ turn ++ py "b") (py "c")
  = chat_text (py "a") (py "b" ++ turn ++ py "c").
Proof. vm_compute. reflexivity. Qed.

(** * Further properties of set-up, training and export *)

Section CallSequences.

Context {L : Libraries}.

Ltac returned := eexists _, _; eassumption.

Ltac other_leaf :=
  split; [done|]; split; [eexists; log_grew|exact I].

Lemma setup_model_returns (model_name device : pystr) (w : world lib_heap) :
  spec (setup_model model_name device) w
    (returns_with
       (fun mt evs =>
          exists pad,
            evs = setup_model_calls model_name device (snd mt) pad
            /\ returned_by (tokenizer_from_pretrained model_name) (snd mt)
            /\ returned_by (get_pad_token (snd mt)) pad
            /\ returned_by (model_from_pretrained model_name
                              (load_config_for device)) (fst mt)) w).
Proof.
  unfold setup_model. repeat step; try other_leaf;
    (split; [done|]; split; [eexists; log_grew|];
     eexists; split; [log_grew|]; cbn [fst snd];
     first [ exists None; split; [reflexivity|]
           | eexists (Some _); split; [reflexivity|] ];
     repeat split; returned).
Qed.

Lemma setup_lora_returns (model : handle) (lora_r : Z) (w : world lib_heap) :
  spec (setup_lora model lora_r) w
    (returns_with
       (fun m evs =>
          exists lcfg,
            evs = [CallGetPeftModel model lcfg; CallPrintTrainableParameters m]
            /\ returned_by (get_peft_model model lcfg) m
            /\ lc_r lcfg = lora_r
            /\ lc_lora_alpha lcfg = (2 * lora_r)%Z
            /\ lc_target_modules lcfg
               = [py "q_proj"; py "k_proj"; py "v_proj"; py "o_proj"]) w).
Proof.
  unfold setup_lora. repeat step; try other_leaf.
  split; [done|]. split; [eexists; log_grew|].
  eexists. split; [log_grew|]. eexists. split; [reflexivity|].
  split; [returned|]. cbn. repeat split. lia.
Qed.

Lemma export_model_returns (model tokenizer : handle) (output_dir : pystr)
    (gguf_path : option pystr) (w : world lib_heap) :
  spec (export_model model tokenizer output_dir gguf_path) w
    (returns_with
       (fun dir evs =>
          dir = os_path_join output_dir (py "merged")
          /\ exists merged,
               evs = export_calls model merged tokenizer dir
               /\ returned_by (merge_and_unload model) merged) w).
Proof.
  unfold export_model. repeat step; try other_leaf;
    (split; [done|]; split; [eexists; log_grew|];
     eexists; split; [log_grew|]; split; [reflexivity|];
     eexists; split; [reflexivity|returned]).
Qed.

Lemma train_returns (model tokenizer : handle) (ds : dataset) (args : arguments)
    (output_dir : pystr) (w : world lib_heap) :
  spec (train model tokenizer ds args output_dir) w
    (returns_with
       (fun t evs =>
          exists cfg,
            evs = train_calls ds cfg t
            /\ returned_by (new_sft_trainer cfg) t
            /\ trainer_sets ds cfg
            /\ sft_model cfg = model /\ sft_tokenizer cfg = tokenizer
            /\ passes_hyperparameters args output_dir cfg) w).
Proof.
  unfold train. step. step.
  - step. step; [|other_leaf].
    destruct a as [tr te]. step. cbn [fst snd].
    destruct (dataset_truthy (Some te)) eqn:Ht;
      repeat step; try other_leaf;
      (split; [done|]; split; [eexists; log_grew|];
       eexists; split; [log_grew|];
       match goal with |- context [CallSFTTrainer ?c] => exists c end; split;
       [unfold train_calls; cbn [sft_eval_dataset]; rewrite Heqb, Ht; reflexivity|];
       split; [returned|]; split;
       [right; split; [done|]; by exists w, w0, tr, te|];
       repeat split).
  - step. cbn [fst snd dataset_truthy].
    repeat step; try other_leaf;
      (split; [done|]; split; [eexists; log_grew|];
       eexists; split; [log_grew|];
       match goal with |- context [CallSFTTrainer ?c] => exists c end; split;
       [unfold train_calls; cbn [sft_eval_dataset dataset_truthy];
        rewrite Heqb; reflexivity|];
       split; [returned|]; split; [by left|]; repeat split).
Qed.


Lemma mkdirs_dirs (ps : list pystr) (f f' : filesystem) (p : pystr) :
  mkdirs ps f = Some f' -> In p ps -> f' !! p = Some Dir.
Proof.
  revert f. induction ps as [|q ps IH]; intros f; simpl; [done|].
  intros H Hin.
  assert (Hm : mkdirs ps (<[q := Dir]> f) = Some f').
  { destruct (f !! q) as [[]|]; done. }
  destruct Hin as [->|Hin]; [|by eapply IH].
  destruct (mkdirs_lookup _ _ _ p Hm) as [-> | ->]; [|done].
  apply lookup_insert_eq.
Qed.

Lemma load_dataset_frame (path : pystr) (w : world lib_heap) :
  spec (load_dataset path) w
    (fun r w' =>
       calls w' = calls w /\ fs w' = fs w
       /\ match r with
          | Returns ds =>
              exists content,
                fs w !! path = Some (File content)
                /\ load_lines (readlines content) [] = Returns ds
          | Exits _ => False
          | Raises _ => True
          end).
Proof.
  unfold spec.
  destruct (fs w !! path) as [[content|]|] eqn:Hf.
  - rewrite (load_dataset_run path content w Hf).
    destruct (load_lines (readlines content) []) as [data|c|e] eqn:Hl;
      cbn [fst snd fs calls].
    + destruct (from_list_error data); [done|].
      split; [done|]. split; [done|]. by exists content.
    + by apply load_lines_never_exits in Hl.
    + done.
  - unfold load_dataset, bind, read_text. by rewrite Hf.
  - unfold load_dataset, bind, read_text. by rewrite Hf.
Qed.

Lemma main_trace_spec (args : arguments) (w : world lib_heap) :
  queries_keep_files ->
  spec (main args) w (main_trace args w).
Proof.
  intros (Hnow & Hcuda & Hmps).
  unfold main. step. apply spec_os_path_exists. cbv beta iota.
  destruct (fs w !! args_data args) as [nd|] eqn:Hdata.
  2:{ rewrite bool_decide_eq_false_2 by (by intros [? ?]). cbn [negb].
      repeat step. split; [done|]. by left. }
  rewrite bool_decide_eq_true_2 by eauto. cbn [negb].
  step. step.
  2:{ exists [CallNow]. split; [log_grew|]. left. by repeat constructor. }
  assert (Hts : returned_by now_strftime a) by returned.
  apply Hnow in E; cbn [fs] in E. rename a into timestamp.
  step. step.
  2:{ exists [CallNow]. split; [log_grew|]. left. by repeat constructor. }
  cbn [fs] in E0.
  assert (Hdir : f !! output_dir_of args timestamp = Some Dir).
  { eapply mkdirs_dirs; [exact E0|]. apply in_app_iff. right. by left. }
  do 14 step.
  step. step.
  2:{ exists [CallNow; CallCudaIsAvailable]. split; [log_grew|].
      left. by repeat constructor. }
  assert (Hcq : returned_by cuda_is_available a) by returned.
  apply Hcuda in E1; cbn [fs] in E1. rename a into cuda.
  (* the device *)
  step.
  apply (spec_use _ _
           (fun r w' =>
              match r with
              | Returns device =>
                  fs w' = f
                  /\ calls w' = calls w ++ query_calls cuda
                  /\ exists mps,
                       device = device_of cuda mps
                       /\ (cuda = false -> returned_by mps_is_available mps)
              | Exits _ => False
              | Raises _ =>
                  exists evs, calls w' = calls w ++ evs
                              /\ Forall (fun ev => is_query ev = true) evs
              end)).
  { destruct cuda; repeat step.
    - split; [done|]. split; [log_grew|]. exists false. by split.
    - split; [apply Hmps in E2; cbn [fs] in E2; congruence|].
      split; [log_grew|]. exists a. split; [done|]. intros _. returned.
    - eexists. split; [log_grew|]. by repeat constructor. }
  intros [device| |ex] w2; [|done|].
  2:{ intros (evs & Hc & Hev). exists evs. split; [done|]. by left. }
  intros (Hfs2 & Hc2 & mps & -> & Hmq).
  (* the dataset *)
  step. eapply spec_use; [apply load_dataset_frame|]. cbv beta.
  intros [ds| |ex] w3 (Hc3 & Hfs3 & Hr3); [|done|].
  2:{ eexists. split; [by rewrite Hc3|]. left.
      destruct cuda; by repeat constructor. }
  destruct Hr3 as (content & Hf & Hl).
  assert (Hloaded : loaded_records args w ds).
  { exists content. split; [|done]. rewrite Hfs2 in Hf.
    destruct (mkdirs_lookup _ _ _ (args_data args) E0) as [H|H];
      rewrite H in Hf; [by rewrite E in Hf|done]. }
  destruct ds as [|ex ds]; cbn [length Nat.eqb].
  { repeat step. split; [done|]. right. exists timestamp, cuda.
    split; [done|]. cbn [calls fs]. split; [by rewrite Hc3|].
    by rewrite Hfs3, Hfs2. }
  set (dataset0 := ex :: ds) in *.
  assert (Hne : exists ds', loaded_records args w ds' /\ ds' <> [])
    by (by exists dataset0).
  (* set-up *)
  step. eapply spec_use; [apply setup_model_returns|]. cbv beta.
  intros r w4 (Hx4 & (e4 & He4) & Hr4).
  destruct r as [[base tok]|c|e]; [|by destruct (Hx4 c)|].
  2:{ exists (query_calls cuda ++ e4). split; [|by right].
      rewrite He4, Hc3, Hc2. by rewrite <- app_assoc. }
  destruct Hr4 as (evs1 & Hc4 & pad & -> & _ & _ & Hbase). cbn [fst snd] in *.
  cbv beta iota zeta; cbn [fst snd].
  step. eapply spec_use; [apply setup_lora_returns|]. cbv beta.
  intros r w5 (Hx5 & (e5 & He5) & Hr5).
  destruct r as [model|c|e]; [|by destruct (Hx5 c)|].
  2:{ eexists. split; [|by right].
      rewrite He5, Hc4, Hc3, Hc2. rewrite <- !app_assoc. reflexivity. }
  destruct Hr5 as (evs2 & Hc5 & lcfg & -> & Hpeft & Hr & _ & _).
  cbv beta iota zeta.
  (* training *)
  step. eapply spec_use; [apply train_returns|]. cbv beta.
  intros r w6 (Hx6 & (e6 & He6) & Hr6).
  destruct r as [trainer|c|e]; [|by destruct (Hx6 c)|].
  2:{ eexists. split; [|by right].
      rewrite He6, Hc5, Hc4, Hc3, Hc2. rewrite <- !app_assoc. reflexivity. }
  destruct Hr6 as (evs3 & Hc6 & cfg & -> & _ & _ & Hm & Ht & Hhyp).
  cbv beta iota zeta.
  (* export *)
  step. eapply spec_use; [apply export_model_returns|]. cbv beta.
  intros r w7 (Hx7 & (e7 & He7) & Hr7).
  destruct r as [merged_dir|c|e]; [|by destruct (Hx7 c)|].
  2:{ eexists. split; [|by right].
      rewrite He7, Hc6, Hc5, Hc4, Hc3, Hc2. rewrite <- !app_assoc. reflexivity. }
  destruct Hr7 as (evs4 & Hc7 & -> & merged & -> & Hmerged).
  cbv beta iota zeta.
  (* the metadata *)
  step. step.
  2:{ eexists. split; [|by right].
      rewrite Hc7, Hc6, Hc5, Hc4, Hc3, Hc2. rewrite <- !app_assoc. reflexivity. }
  repeat step.
  exists timestamp, cuda, mps, dataset0, tok, pad, base, lcfg, model, cfg,
    trainer, merged.
  cbv zeta. split; [done|]. split; [done|]. split.
  { cbn [calls]. rewrite Hc7, Hc6, Hc5, Hc4, Hc3, Hc2.
    rewrite <- !app_assoc. reflexivity. }
  split; [done|]. split; [done|]. split; [done|]. split; [done|].
  split; [done|]. split; [done|]. split; [done|].
  split; [apply lookup_insert_eq|done].
Qed.

(** Whatever happens, [sys.exit] is only ever called with 1. *)
Lemma main_exit_codes (args : arguments) (w : world lib_heap) :
  spec (main args) w (fun r _ => forall c, r = Exits c -> c = 1%Z).
Proof.
  assert (Hsub : forall A (m : M A) w0 (k : A -> M unit),
             spec m w0 (fun r _ => forall c, r <> Exits c) ->
             (forall a w1, spec (k a) w1 (fun r _ => forall c, r = Exits c -> c = 1%Z)) ->
             spec (bind m k) w0 (fun r _ => forall c, r = Exits c -> c = 1%Z)).
  { intros A m w0 k Hm Hk. apply spec_bind. eapply spec_use; [exact Hm|].
    intros [a|c|e] w1 H; [apply Hk|by destruct (H c)|by intros c [=]]. }
  unfold main. step. apply spec_os_path_exists. cbv beta iota.
  destruct (negb _).
  { repeat step. by intros c [= <-]. }
  step. step; [|by intros c [=]].
  step. step; [|by intros c [=]].
  do 14 step. step. step; [|by intros c [=]].
  apply Hsub.
  { destruct a0; repeat step; by intros c. }
  intros device w2. apply Hsub.
  { eapply spec_use; [apply load_dataset_spec|].
    intros [ds| |e] w3 H c; done. }
  intros ds w3. destruct (length ds =? 0)%nat.
  { repeat step. by intros c [= <-]. }
  apply Hsub.
  { eapply spec_use; [apply setup_model_spec|]. by intros r w4 [H _]. }
  intros loaded w4. cbv zeta. apply Hsub.
  { eapply spec_use; [apply setup_lora_spec|]. by intros r w5 [H _]. }
  intros model w5. apply Hsub.
  { eapply spec_use; [apply train_spec|]. by intros r w6 [H _]. }
  intros trainer w6. apply Hsub.
  { eapply spec_use; [apply export_model_spec|]. by intros r w7 [H _]. }
  intros dir w7.
  repeat step; by intros c [=].
Qed.

Lemma mkdirs_blocked (ps : list pystr) (f : filesystem) (p c : pystr) :
  In p ps -> f !! p = Some (File c) -> mkdirs ps f = None.
Proof.
  intros Hin Hf. destruct (mkdirs ps f) as [f'|] eqn:E; [|done].
  pose proof (mkdirs_dirs _ _ _ p E Hin) as Hd.
  pose proof (mkdirs_keeps_files _ _ _ p c E Hf) as Hk.
  rewrite Hd in Hk. discriminate.
Qed.

End CallSequences.

(** X9: when [train] returns, it has called the libraries in this order and
    nothing else: the split when there are more than twenty records, the
    construction of the trainer, its training, and its evaluation exactly
    when it has a non-empty evaluation set.  It returns the trainer it
    built, on the model and the tokenizer it was given; with at most twenty
    records that trainer has the whole dataset and no evaluation set. *)
Theorem X9_train_call_sequence {L : Libraries}
    (model tokenizer : handle) (ds : dataset) (args : arguments)
    (output_dir : pystr) (w w' : world lib_heap) (t : handle) :
  train model tokenizer ds args output_dir w = (Returns t, w') ->
  exists cfg,
    calls w' = calls w ++ train_calls ds cfg t
    /\ returned_by (new_sft_trainer cfg) t
    /\ sft_model cfg = model /\ sft_tokenizer cfg = tokenizer
    /\ trainer_sets ds cfg.
Proof.
  intros Hrun.
  destruct (spec_run _ _ _ _ _ (train_returns model tokenizer ds args output_dir w) Hrun)
    as (_ & _ & evs & Hc & cfg & -> & Hret & Hsets & Hm & Ht & _).
  by exists cfg.
Qed.

Lemma X9_train_call_sequence_witness :
  let ds := repeat (Example (py "x")) 21 in
  let run := @train stub_libraries 3 1 ds (stub_args (py "train.jsonl"))
               (py "out") (World ∅ [] tt []) in
  exists cfg,
    calls (snd run) = [] ++ train_calls ds cfg 4
    /\ @returned_by stub_libraries _ (new_sft_trainer cfg) 4
    /\ sft_model cfg = 3 /\ sft_tokenizer cfg = 1
    /\ @trainer_sets stub_libraries ds cfg.
Proof.
  intros ds run.
  apply (@X9_train_call_sequence stub_libraries 3 1 ds
           (stub_args (py "train.jsonl")) (py "out") (World ∅ [] tt [])
           (snd run) 4).
  vm_compute. reflexivity.
Defined.

(** X10: the trainer [train] builds is configured with the output
    directory, the number of epochs, the batch size, the learning rate, the
    scheduler and the maximum length it was called with, reads the "text"
    field, and has both mixed-precision modes off. *)
Theorem X10_hyperparameters_reach_the_trainer {L : Libraries}
    (model tokenizer : handle) (ds : dataset) (args : arguments)
    (output_dir : pystr) (w w' : world lib_heap) (t : handle) :
  train model tokenizer ds args output_dir w = (Returns t, w') ->
  exists cfg,
    In (CallSFTTrainer cfg) (calls w')
    /\ returned_by (new_sft_trainer cfg) t
    /\ passes_hyperparameters args output_dir cfg.
Proof.
  intros Hrun.
  destruct (spec_run _ _ _ _ _ (train_returns model tokenizer ds args output_dir w) Hrun)
    as (_ & _ & evs & Hc & cfg & -> & Hret & _ & _ & _ & Hhyp).
  exists cfg. split; [|done]. rewrite Hc. unfold train_calls.
  apply in_app_iff. right. apply in_app_iff. right. by left.
Qed.

Lemma X10_hyperparameters_witness :
  let args := stub_args (py "train.jsonl") in
  let run := @train stub_libraries 3 1 [Example (py "x")] args (py "out")
               (World ∅ [] tt []) in
  exists cfg,
    In (CallSFTTrainer cfg) (calls (snd run))
    /\ @returned_by stub_libraries _ (new_sft_trainer cfg) 4
    /\ passes_hyperparameters args (py "out") cfg.
Proof.
  intros args run.
  apply (@X10_hyperparameters_reach_the_trainer stub_libraries 3 1
           [Example (py "x")] args (py "out") (World ∅ [] tt []) (snd run) 4).
  vm_compute. reflexivity.
Defined.

(** X11: when [setup_model] returns, it has loaded the tokenizer, read its
    padding token, set it to the end-of-sequence token exactly when there
    was none, and then loaded the model: in full precision when the device
    is "cpu", and 4-bit quantized on every other device. *)
Theorem X11_setup_model_call_sequence {L : Libraries}
    (model_name device : pystr) (w w' : world lib_heap)
    (model tokenizer : handle) :
  setup_model model_name device w = (Returns (model, tokenizer), w') ->
  (exists pad,
      calls w' = calls w ++ setup_model_calls model_name device tokenizer pad
      /\ returned_by (tokenizer_from_pretrained model_name) tokenizer
      /\ returned_by (get_pad_token tokenizer) pad
      /\ returned_by (model_from_pretrained model_name (load_config_for device))
                     model)
  /\ (load_config_for device = LoadCpu <-> device = py "cpu")
  /\ (load_config_for device = LoadQuantized <-> device <> py "cpu").
Proof.
  intros Hrun. split.
  - destruct (spec_run _ _ _ _ _ (setup_model_returns model_name device w) Hrun)
      as (_ & _ & evs & Hc & pad & -> & Htok & Hpad & Hmodel).
    by exists pad.
  - unfold load_config_for, pystr_eqb. case_bool_decide; split; split; done.
Qed.

Lemma X11_setup_model_witness :
  let run := @setup_model stub_libraries (py "Qwen") (py "mps") (World ∅ [] tt []) in
  (exists pad,
      calls (snd run) = [] ++ setup_model_calls (py "Qwen") (py "mps") 1 pad
      /\ @returned_by stub_libraries _ (tokenizer_from_pretrained (py "Qwen")) 1
      /\ @returned_by stub_libraries _ (get_pad_token 1) pad
      /\ @returned_by stub_libraries _
           (model_from_pretrained (py "Qwen") (load_config_for (py "mps"))) 2)
  /\ (load_config_for (py "mps") = LoadCpu <-> py "mps" = py "cpu")
  /\ (load_config_for (py "mps") = LoadQuantized <-> py "mps" <> py "cpu").
Proof.
  intros run.
  apply (@X11_setup_model_call_sequence stub_libraries (py "Qwen") (py "mps")
           (World ∅ [] tt []) (snd run) 2 1).
  vm_compute. reflexivity.
Defined.

(** X12: when [setup_lora] returns, it returns the adapter model that
    [get_peft_model] made from the model it was given, with the rank asked
    for, a scaling factor of twice the rank and the four attention
    projections as targets, and it has printed that model's trainable
    parameters; these are its only library calls. *)
Theorem X12_setup_lora_wraps_the_model {L : Libraries}
    (model : handle) (lora_r : Z) (w w' : world lib_heap) (m : handle) :
  setup_lora model lora_r w = (Returns m, w') ->
  exists lcfg,
    calls w' = calls w ++ [CallGetPeftModel model lcfg;
                           CallPrintTrainableParameters m]
    /\ returned_by (get_peft_model model lcfg) m
    /\ lc_r lcfg = lora_r
    /\ lc_lora_alpha lcfg = (2 * lora_r)%Z
    /\ lc_target_modules lcfg
       = [py "q_proj"; py "k_proj"; py "v_proj"; py "o_proj"].
Proof.
  intros Hrun.
  destruct (spec_run _ _ _ _ _ (setup_lora_returns model lora_r w) Hrun)
    as (_ & _ & evs & Hc & lcfg & -> & H).
  by exists lcfg.
Qed.

Lemma X12_setup_lora_witness :
  let run := @setup_lora stub_libraries 2 8%Z (World ∅ [] tt []) in
  exists lcfg,
    calls (snd run) = [] ++ [CallGetPeftModel 2 lcfg;
                             CallPrintTrainableParameters 3]
    /\ @returned_by stub_libraries _ (get_peft_model 2 lcfg) 3
    /\ lc_r lcfg = 8%Z
    /\ lc_lora_alpha lcfg = (2 * 8)%Z
    /\ lc_target_modules lcfg
       = [py "q_proj"; py "k_proj"; py "v_proj"; py "o_proj"].
Proof.
  intros run.
  apply (@X12_setup_lora_wraps_the_model stub_libraries 2 8%Z
           (World ∅ [] tt []) (snd run) 3).
  vm_compute. reflexivity.
Defined.

(** X13: when [export_model] returns, it returns the directory "merged"
    under the output directory, and its library calls are the merge of the
    model it was given and the saving of the merged model and of the
    tokenizer into that directory, whether or not a GGUF path was given:
    for GGUF it only prints. *)
Theorem X13_export_model_call_sequence {L : Libraries}
    (model tokenizer : handle) (output_dir : pystr) (gguf_path : option pystr)
    (w w' : world lib_heap) (dir : pystr) :
  export_model model tokenizer output_dir gguf_path w = (Returns dir, w') ->
  dir = os_path_join output_dir (py "merged")
  /\ exists merged,
       calls w' = calls w ++ export_calls model merged tokenizer dir
       /\ returned_by (merge_and_unload model) merged.
Proof.
  intros Hrun.
  destruct (spec_run _ _ _ _ _
              (export_model_returns model tokenizer output_dir gguf_path w) Hrun)
    as (_ & _ & evs & Hc & -> & merged & -> & Hm).
  split; [done|]. by exists merged.
Qed.

Lemma X13_export_model_witness :
  let run := @export_model stub_libraries 3 1 (py "out") (Some (py "m.gguf"))
               (World ∅ [] tt []) in
  py "out/merged" = os_path_join (py "out") (py "merged")
  /\ exists merged,
       calls (snd run) = [] ++ export_calls 3 merged 1 (py "out/merged")
       /\ @returned_by stub_libraries _ (merge_and_unload 3) merged.
Proof.
  intros run.
  apply (@X13_export_model_call_sequence stub_libraries 3 1 (py "out")
           (Some (py "m.gguf")) (World ∅ [] tt []) (snd run) (py "out/merged")).
  vm_compute. reflexivity.
Defined.

(** X14: when "merged" under the output directory, or a directory on the
    way to it, is an existing file, [export_model] raises [OSError] before
    anything else: nothing is merged, saved or printed. *)
Theorem X14_export_blocked_by_a_file {L : Libraries}
    (model tokenizer : handle) (output_dir : pystr) (gguf_path : option pystr)
    (w : world lib_heap) (p content : pystr) :
  let merged_dir := os_path_join output_dir (py "merged") in
  In p (ancestors merged_dir ++ [merged_dir]) ->
  fs w !! p = Some (File content) ->
  export_model model tokenizer output_dir gguf_path w = (Raises OSError, w).
Proof.
  intros merged_dir Hin Hf.
  unfold export_model, bind at 1, os_makedirs.
  fold merged_dir. by rewrite (mkdirs_blocked _ _ p content Hin Hf).
Qed.

Lemma X14_export_blocked_witness :
  let w := stub_world (py "out") (py "not a directory") in
  @export_model stub_libraries 3 1 (py "out") None w = (Raises OSError, w).
Proof.
  intros w.
  apply (@X14_export_blocked_by_a_file stub_libraries 3 1 (py "out") None w
           (py "out") (py "not a directory")).
  - vm_compute. by left.
  - vm_compute. reflexivity.
Defined.

(** X15: a run of [main] that returns has loaded at least one record, has
    asked for the time and the devices, and has then called the libraries
    in one fixed order: tokenizer and model, adapter, training, merge and
    save.  The model that is trained and merged is the adapter model, and
    [config.json] records the device that was used.  The device follows
    from what the queries answered: MPS is asked for exactly when CUDA
    answered no, and the one load of the base model is in full precision
    exactly when both answered no. *)
Theorem X15_successful_run {L : Libraries}
    (args : arguments) (w w' : world lib_heap) :
  queries_keep_files ->
  main args w = (Returns tt, w') ->
  successful_run args w w'
  /\ (forall cuda mps,
        load_config_for (device_of cuda mps) = LoadCpu
        <-> cuda = false /\ mps = false)
  /\ (exists cuda mps evs,
        calls w' = calls w ++ evs
        /\ returned_by cuda_is_available cuda
        /\ (cuda = false -> returned_by mps_is_available mps)
        /\ (In CallMpsIsAvailable evs <-> cuda = false)
        /\ In (CallModelFromPretrained (args_model args)
                 (load_config_for (device_of cuda mps))) evs
        /\ (forall name c, In (CallModelFromPretrained name c) evs ->
              name = args_model args
              /\ (c = LoadCpu <-> cuda = false /\ mps = false))).
Proof.
  intros Hq Hrun.
  assert (Hdev : forall cuda mps,
             load_config_for (device_of cuda mps) = LoadCpu
             <-> cuda = false /\ mps = false).
  { intros [] []; vm_compute; split; try done; by intros []. }
  pose proof (spec_run _ _ _ _ _ (main_trace_spec args w Hq) Hrun) as Hm.
  split; [exact Hm|]. split; [exact Hdev|].
  destruct Hm as (ts & cuda & mps & ds & tok & pad & base & lcfg & model
                  & cfg & t & merged & Hm).
  cbv zeta in Hm.
  destruct Hm as (_ & _ & Hc & _ & _ & _ & _ & _ & _ & _ & _ & _ & Hcq & Hmq).
  eexists cuda, mps, _. split; [exact Hc|].
  split; [exact Hcq|]. split; [exact Hmq|].
  unfold query_calls, setup_model_calls, train_calls, export_calls.
  split; [|split].
  - rewrite !in_app_iff.
    destruct cuda, pad, (20 <? length ds)%nat,
      (dataset_truthy (sft_eval_dataset cfg)); cbn [In];
      split; intros H; try done;
      repeat (destruct H as [H|H]; try discriminate H; try done);
      auto 10.
  - rewrite !in_app_iff. right. left. right. right. by left.
  - intros name c. rewrite !in_app_iff.
    intros H.
    assert (Heq : CallModelFromPretrained name c
                  = CallModelFromPretrained (args_model args)
                      (load_config_for (device_of cuda mps))).
    { destruct cuda, pad, (20 <? length ds)%nat,
        (dataset_truthy (sft_eval_dataset cfg)); cbn [In] in H;
        repeat (destruct H as [H|H]; try discriminate H; try done). }
    injection Heq as -> ->. split; [done|apply Hdev].
Qed.

Lemma X15_successful_run_witness :
  let w := stub_world (py "train.jsonl") (jtext "{'prompt':'a','completion':'b'}") in
  let args := stub_args (py "train.jsonl") in
  @successful_run stub_libraries args w (snd (@main stub_libraries args w))
  /\ (forall cuda mps,
        load_config_for (device_of cuda mps) = LoadCpu
        <-> cuda = false /\ mps = false)
  /\ (exists cuda mps evs,
        calls (snd (@main stub_libraries args w)) = calls w ++ evs
        /\ returned_by (@cuda_is_available stub_libraries) cuda
        /\ (cuda = false -> returned_by (@mps_is_available stub_libraries) mps)
        /\ (In CallMpsIsAvailable evs <-> cuda = false)
        /\ In (CallModelFromPretrained (args_model args)
                 (load_config_for (device_of cuda mps))) evs
        /\ (forall name c, In (CallModelFromPretrained name c) evs ->
              name = args_model args
              /\ (c = LoadCpu <-> cuda = false /\ mps = false))).
Proof.
  intros w args.
  apply (@X15_successful_run stub_libraries args w
           (snd (@main stub_libraries args w)) stub_queries_keep_files).
  vm_compute. reflexivity.
Defined.

(** On the stand-ins, where neither accelerator is available, the run asks
    for both and loads the base model in full precision. *)
Lemma main_on_cpu :
  let w := stub_world (py "train.jsonl") (jtext "{'prompt':'a','completion':'b'}") in
  let args := stub_args (py "train.jsonl") in
  List.filter is_query (calls (snd (@main stub_libraries args w)))
  = [CallNow; CallCudaIsAvailable; CallMpsIsAvailable]
  /\ In (CallModelFromPretrained (py "Qwen/Qwen2.5-0.5B-Instruct") LoadCpu)
        (calls (snd (@main stub_libraries args w))).
Proof. vm_compute. split; [reflexivity|]. auto 10. Qed.

(** X16: no model is loaded for nothing: in any run of [main], however it
    ends, either the only library calls are the clock and the device
    queries, or the data file had been loaded and had given at least one
    record. *)
Theorem X16_no_model_without_data {L : Libraries}
    (args : arguments) (w w' : world lib_heap) (r : outcome unit) :
  queries_keep_files ->
  main args w = (r, w') ->
  exists evs,
    calls w' = calls w ++ evs
    /\ (Forall (fun ev => is_query ev = true) evs
        \/ exists ds, loaded_records args w ds /\ ds <> []).
Proof.
  intros Hq Hrun.
  pose proof (spec_run _ _ _ _ _ (main_trace_spec args w Hq) Hrun) as Hm.
  destruct r as [[]|c|e]; cbn [main_trace] in Hm.
  - destruct Hm as (ts & cuda & mps & ds & tok & pad & base & lcfg & model
                    & cfg & t & merged & Hm).
    cbv zeta in Hm. destruct Hm as (Hl & Hne & Hc & _).
    eexists. split; [exact Hc|]. right. by exists ds.
  - destruct Hm as [_ [(_ & Hc & _)|(ts & cuda & _ & Hc & _)]].
    + exists []. split; [by rewrite app_nil_r|]. by left.
    + exists (query_calls cuda). split; [done|]. left.
      destruct cuda; by repeat constructor.
  - done.
Qed.

Lemma X16_no_model_without_data_witness :
  let w := stub_world (py "train.jsonl") (jtext "{'prompt':'','completion':'b'}") in
  let args := stub_args (py "train.jsonl") in
  exists evs,
    calls (snd (@main stub_libraries args w)) = calls w ++ evs
    /\ (Forall (fun ev => is_query ev = true) evs
        \/ exists ds, @loaded_records stub_libraries args w ds /\ ds <> []).
Proof.
  intros w args.
  apply (@X16_no_model_without_data stub_libraries args w
           (snd (@main stub_libraries args w))
           (fst (@main stub_libraries args w)) stub_queries_keep_files).
  vm_compute. reflexivity.
Defined.

(** X17: the exit status of a run.  Once [parse_args] has returned the
    arguments, whatever they are, whatever the world and the libraries, and
    however the run ends, the status is 0 or 1: [sys.exit] is only ever
    called with 1, and an exception nobody catches gives 1.  For the whole
    of [main], the status is 0, 1, or the one argparse itself left with
    before anything else ran; and when argparse returns, [main] goes on
    with the arguments it returned. *)
Theorem X17_exit_status_0_or_1_once_parsed {L : Libraries}
    (argv : list pystr) (args : arguments) (w : world lib_heap) :
  (exit_status (fst (main args w)) = 0%Z
   \/ exit_status (fst (main args w)) = 1%Z)
  /\ (exit_status (fst (main_entry argv w)) = 0%Z
      \/ exit_status (fst (main_entry argv w)) = 1%Z
      \/ exists c, parse_args argv w = (Exits c, snd (main_entry argv w))
                   /\ fst (main_entry argv w) = Exits c)
  /\ (forall a w1, parse_args argv w = (Returns a, w1) ->
        main_entry argv w = main a w1).
Proof.
  assert (Hmain : forall a w0,
             exit_status (fst (main a w0)) = 0%Z
             \/ exit_status (fst (main a w0)) = 1%Z).
  { intros a w0. pose proof (main_exit_codes a w0) as H. unfold spec in H.
    destruct (fst (main a w0)) as [u|c|e]; cbn [exit_status];
      [by left| |by right].
    right. by apply H. }
  split; [apply Hmain|].
  unfold main_entry, bind.
  destruct (parse_args argv w) as [[a|c|e] w1] eqn:E.
  - split; [|by intros a' w1' [= <- <-]].
    destruct (Hmain a w1) as [H|H]; auto.
  - split; [|done]. right. right. by exists c.
  - split; [|done]. right. by left.
Qed.

(** On the stand-in for argparse: a command line without [--data] ends the
    process with status 2 before [main] does anything, and [--data] alone
    starts the run with every default. *)
Lemma main_entry_command_lines :
  let w := stub_world (py "train.jsonl") (jtext "{'prompt':'a','completion':'b'}") in
  @main_entry stub_libraries [py "--epochs"; py "3"] w = (Exits 2%Z, w)
  /\ @main_entry stub_libraries [py "--data"; py "train.jsonl"] w
     = @main stub_libraries (stub_args (py "train.jsonl")) w
  /\ exit_status (fst (@main_entry stub_libraries [py "--data"; py "train.jsonl"] w))
     = 0%Z.
Proof. vm_compute. repeat split; reflexivity. Qed.

(** X18: a data file that is there but gives no record still costs a
    directory: [main] leaves with status 1 only after it has made the
    output directory of the run, and after the clock and device queries. *)
Theorem X18_empty_dataset_leaves_the_directory {L : Libraries}
    (args : arguments) (w w' : world lib_heap) (c : Z) :
  queries_keep_files ->
  is_Some (fs w !! args_data args) ->
  main args w = (Exits c, w') ->
  c = 1%Z
  /\ exists timestamp cuda,
       loaded_records args w []
       /\ calls w' = calls w ++ query_calls cuda
       /\ fs w' !! output_dir_of args timestamp = Some Dir.
Proof.
  intros Hq [nd Hnd] Hrun.
  pose proof (spec_run _ _ _ _ _ (main_trace_spec args w Hq) Hrun) as Hm.
  cbn [main_trace] in Hm. destruct Hm as [-> [(Hn & _)|Hm]]; [|done].
  by rewrite Hnd in Hn.
Qed.

Lemma X18_empty_dataset_witness :
  let w := stub_world (py "train.jsonl") (jtext "{'prompt':'','completion':'b'}||") in
  let args := stub_args (py "train.jsonl") in
  1%Z = 1%Z
  /\ exists timestamp cuda,
       @loaded_records stub_libraries args w []
       /\ calls (snd (@main stub_libraries args w)) = calls w ++ query_calls cuda
       /\ fs (snd (@main stub_libraries args w)) !! output_dir_of args timestamp
          = Some Dir.
Proof.
  intros w args.
  apply (@X18_empty_dataset_leaves_the_directory stub_libraries args w
           (snd (@main stub_libraries args w)) 1 stub_queries_keep_files).
  - vm_compute. eauto.
  - vm_compute. reflexivity.
Defined.

(** X19: a directory passes the existence check of [main]: when [--data]
    names a directory, the run neither returns nor reaches [sys.exit]; it
    ends on an exception nobody catches, with status 1, and no library was
    called but the clock and the device queries. *)
Theorem X19_data_path_is_a_directory {L : Libraries}
    (args : arguments) (w w' : world lib_heap) (r : outcome unit) :
  queries_keep_files ->
  fs w !! args_data args = Some Dir ->
  main args w = (r, w') ->
  (exists e, r = Raises e)
  /\ exit_status r = 1%Z
  /\ exists evs, calls w' = calls w ++ evs
                 /\ Forall (fun ev => is_query ev = true) evs.
Proof.
  intros Hq Hdir Hrun.
  pose proof (spec_run _ _ _ _ _ (main_trace_spec args w Hq) Hrun) as Hm.
  assert (Hno : forall ds, ~ loaded_records args w ds).
  { intros ds (content & Hf & _). by rewrite Hdir in Hf. }
  destruct r as [[]|c|e]; cbn [main_trace] in Hm.
  - destruct Hm as (ts & cuda & mps & ds & tok & pad & base & lcfg & model
                    & cfg & t & merged & Hm).
    cbv zeta in Hm. destruct Hm as (Hl & _). by destruct (Hno ds).
  - destruct Hm as [_ [(Hn & _)|(ts & cuda & Hl & _)]].
    + by rewrite Hdir in Hn.
    + by destruct (Hno []).
  - split; [by exists e|]. split; [done|].
    destruct Hm as (evs & Hc & [Hq'|(ds & Hl & _)]); [|by destruct (Hno ds)].
    by exists evs.
Qed.

Lemma X19_data_path_is_a_directory_witness :
  let w : world unit := World {[ py "data" := Dir ]} [] tt [] in
  let args := stub_args (py "data") in
  (exists e, fst (@main stub_libraries args w) = Raises e)
  /\ exit_status (fst (@main stub_libraries args w)) = 1%Z
  /\ exists evs, calls (snd (@main stub_libraries args w)) = calls w ++ evs
                 /\ Forall (fun ev => is_query ev = true) evs.
Proof.
  intros w args.
  apply (@X19_data_path_is_a_directory stub_libraries args w
           (snd (@main stub_libraries args w))
           (fst (@main stub_libraries args w)) stub_queries_keep_files).
  - vm_compute. reflexivity.
  - vm_compute. reflexivity.
Defined.

(** X20: only [prompt] and [completion] are read: two lines whose JSON
    objects agree on these two keys do the same to the list, whatever else
    the objects hold. *)
Theorem X20_other_fields_ignored {L : Libraries}
    (l1 l2 : pystr) (d1 d2 : list (pystr * json)) (data : list example) :
  str_strip l1 <> [] -> str_strip l2 <> [] ->
  json_loads (str_strip l1) = Some (JDict d1) ->
  json_loads (str_strip l2) = Some (JDict d2) ->
  dict_get d1 (py "prompt") = dict_get d2 (py "prompt") ->
  dict_get d1 (py "completion") = dict_get d2 (py "completion") ->
  load_line l1 data = load_line l2 data.
Proof.
  intros H1 H2 Hj1 Hj2 Hp Hc. unfold load_line, dict_get_default.
  destruct (str_strip l1) as [|a1 r1]; [done|].
  destruct (str_strip l2) as [|a2 r2]; [done|].
  by rewrite Hj1, Hj2, Hp, Hc.
Qed.

Lemma X20_other_fields_ignored_witness :
  @load_line stub_libraries
    (jtext "{'id': 7, 'prompt':'a', 'meta': {'lang': 'en'}, 'completion':'b'}") []
  = @load_line stub_libraries (jtext "{'completion':'b','prompt':'a'}") [].
Proof.
  apply (@X20_other_fields_ignored stub_libraries _ _
           [(py "id", JInt 7); (py "prompt", JStr (py "a"));
            (py "meta", JDict [(py "lang", JStr (py "en"))]);
            (py "completion", JStr (py "b"))]
           [(py "completion", JStr (py "b")); (py "prompt", JStr (py "a"))]);
    vm_compute; (reflexivity || discriminate).
Defined.
